(** * Agent YAML validator (scripts/validate_yaml.py)

    A shallow embedding of [AgentYAMLValidator] and of the fragment of Python
    it runs on, followed by the properties of the validation rules.

    Conventions of the embedding.
    - A parsed YAML document is a [value]: [None], booleans, integers, floats,
      strings, sequences and mappings.  Mappings keep their insertion order
      (an association list, first binding of a key wins) and are keyed by
      strings.  A Python [str] is kept as its UTF-8 bytes.  The other values
      a YAML loader can build (dates, binary data, sets, keys that are not
      strings) are left out.
    - The validator object is the record [validator]: the two lists
      [self.errors] and [self.warnings], and what was printed so far.
    - A method is a function [validator -> outcome A]: it either returns a
      value or raises, and in both cases leaves a validator state behind, as
      the object survives an exception that escapes [validate].
    - Python's built-in [repr] of a float, a sequence or a mapping is not
      part of the repository; it is the section variable [py_repr].
    - [print_results] and the command line only render the two lists and
      are not embedded. *)

From Stdlib Require Import String Ascii List ZArith Bool Arith Lia.
From Stdlib Require Import Floats.PrimFloat.
From Stdlib Require Import DecimalString DecimalNat.
Import ListNotations.
Local Open Scope list_scope.
Local Open Scope string_scope.
#[local] Set Warnings "-register-all".

(* ================================================================== *)
(** ** Python values *)

Inductive value : Type :=
| VNone
| VBool (b : bool)
| VInt (z : Z)
| VFloat (f : float)
| VStr (s : string)
| VList (l : list value)
| VDict (d : list (string * value)).

(** The exceptions the rules can let escape. *)
Inductive exn : Type :=
| TypeError
| AttributeError
| IndexError
| ValueError.

(** A primitive either yields a value or raises. *)
Definition res (A : Type) : Type := (exn + A)%type.

Definition res_bind {A B : Type} (r : res A) (k : A -> res B) : res B :=
  match r with
  | inl e => inl e
  | inr a => k a
  end.

(** [bool(v)]: Python truthiness. *)
Definition truthy (v : value) : bool :=
  match v with
  | VNone => false
  | VBool b => b
  | VInt z => negb (z =? 0)%Z
  | VFloat f => negb (PrimFloat.eqb f 0%float)
  | VStr s => negb (s =? "")
  | VList l => match l with [] => false | _ :: _ => true end
  | VDict d => match d with [] => false | _ :: _ => true end
  end.

(** [v == s] for a string literal [s]: only an equal [str] compares equal. *)
Definition py_eq_str (v : value) (s : string) : bool :=
  match v with
  | VStr t => (t =? s)
  | _ => false
  end.

(** [v in L] for one of the class constants, a list of strings. *)
Definition in_list (v : value) (L : list string) : bool :=
  existsb (py_eq_str v) L.

(** [needle in hay] for two strings: substring test. *)
Fixpoint str_contains (needle hay : string) : bool :=
  if String.prefix needle hay then true
  else match hay with
       | EmptyString => false
       | String _ hay' => str_contains needle hay'
       end.

Fixpoint dict_get (d : list (string * value)) (k : string) : option value :=
  match d with
  | [] => None
  | (k', v) :: d' => if (k' =? k) then Some v else dict_get d' k
  end.

Definition dict_has (d : list (string * value)) (k : string) : bool :=
  match dict_get d k with
  | Some _ => true
  | None => false
  end.

(** [d[k] = v]: overwrite the binding in place, or append a new one. *)
Fixpoint dict_set (d : list (string * value)) (k : string) (v : value)
  : list (string * value) :=
  match d with
  | [] => [(k, v)]
  | (k', v') :: d' =>
      if (k' =? k) then (k', v) :: d' else (k', v') :: dict_set d' k v
  end.

(** [key in obj] for a string [key]: key membership in a mapping, element
    membership in a sequence, substring test in a string, [TypeError] for
    the values that are not containers. *)
Definition py_contains (obj : value) (key : string) : res bool :=
  match obj with
  | VDict d => inr (dict_has d key)
  | VList l => inr (existsb (fun x => py_eq_str x key) l)
  | VStr s => inr (str_contains key s)
  | VNone | VBool _ | VInt _ | VFloat _ => inl TypeError
  end.

(** [obj.get(key, default)]: only a mapping has the method. *)
Definition py_get_default (obj : value) (key : string) (default : value)
  : res value :=
  match obj with
  | VDict d =>
      inr (match dict_get d key with Some v => v | None => default end)
  | _ => inl AttributeError
  end.

(** [obj.get(key)]. *)
Definition py_get (obj : value) (key : string) : res value :=
  py_get_default obj key VNone.

(** The characters of a string, one string per code point: a UTF-8
    continuation byte (10xxxxxx) stays with the byte that leads it. *)
Definition is_continuation (c : ascii) : bool :=
  match c with
  | Ascii _ _ _ _ _ _ b6 b7 => b7 && negb b6
  end.

Fixpoint utf8_chars_aux (s : string) : string * list string :=
  match s with
  | EmptyString => (EmptyString, [])
  | String c s' =>
      let (pending, acc) := utf8_chars_aux s' in
      if is_continuation c then (String c pending, acc)
      else (EmptyString, String c pending :: acc)
  end.

Definition utf8_chars (s : string) : list string := snd (utf8_chars_aux s).

(** [iter(obj)], run to the end: the elements of a sequence, the keys of a
    mapping, the characters of a string; [TypeError] otherwise. *)
Definition py_iter (obj : value) : res (list value) :=
  match obj with
  | VList l => inr l
  | VDict d => inr (map (fun kv => VStr (fst kv)) d)
  | VStr s => inr (map VStr (utf8_chars s))
  | VNone | VBool _ | VInt _ | VFloat _ => inl TypeError
  end.

(** [l[i]] on a list of strings. *)
Definition py_index (l : list string) (i : nat) : res string :=
  match nth_error l i with
  | Some s => inr s
  | None => inl IndexError
  end.

(** [s.split(sep)]: cut at the occurrences of [sep], found from the left
    and not overlapping.  [skip] counts the characters of a separator just
    matched that are still to be passed over; [cur] is the current piece,
    reversed. *)
Fixpoint rev_string (acc s : string) : string :=
  match s with
  | EmptyString => acc
  | String c s' => rev_string (String c acc) s'
  end.

Fixpoint split_go (sep s : string) (skip : nat) (cur : string) : list string :=
  match s with
  | EmptyString => [rev_string "" cur]
  | String c s' =>
      match skip with
      | S k => split_go sep s' k cur
      | O =>
          if String.prefix sep s
          then rev_string "" cur :: split_go sep s' (String.length sep - 1) ""
          else split_go sep s' 0 (String c cur)
      end
  end.

Definition py_split (s sep : string) : res (list string) :=
  match sep with
  | EmptyString => inl ValueError
  | String _ _ => inr (split_go sep s 0 "")
  end.

(** [str(n)] for the integers. *)
Definition nat_str (n : nat) : string :=
  NilEmpty.string_of_uint (Nat.to_uint n).

Definition int_str (z : Z) : string :=
  NilZero.string_of_int (Z.to_int z).

(** [str(L)] for a class constant [L]: its members are plain identifiers,
    which [repr] wraps in single quotes. *)
Definition list_str (L : list string) : string :=
  "[" ++ String.concat ", " (map (fun s => "'" ++ s ++ "'") L) ++ "]".

(* ================================================================== *)
(** ** The validator object and its methods *)

Record validator : Type := mkValidator {
  errors : list string;
  warnings : list string;
  stdout : list string
}.

(** [__init__]: both lists start empty. *)
Definition init : validator := mkValidator [] [] [].

Inductive outcome (A : Type) : Type :=
| Returned (a : A) (s : validator)
| Raised (e : exn) (s : validator).
Arguments Returned {A} a s.
Arguments Raised {A} e s.

Definition M (A : Type) : Type := validator -> outcome A.

Definition ret {A : Type} (a : A) : M A := fun s => Returned a s.

Definition bind {A B : Type} (m : M A) (k : A -> M B) : M B :=
  fun s =>
    match m s with
    | Returned a s' => k a s'
    | Raised e s' => Raised e s'
    end.

Definition lift {A : Type} (r : res A) : M A :=
  fun s =>
    match r with
    | inr a => Returned a s
    | inl e => Raised e s
    end.

Declare Scope py_scope.
Delimit Scope py_scope with py.
Notation "x <- m ;; k" := (bind m (fun x => k))
  (at level 61, m at next level, right associativity) : py_scope.
Notation "m ;; k" := (bind m (fun _ => k))
  (at level 61, right associativity) : py_scope.
Local Open Scope py_scope.

(** The validator state an outcome leaves behind. *)
Definition state_of {A : Type} (o : outcome A) : validator :=
  match o with
  | Returned _ s => s
  | Raised _ s => s
  end.

(** [self.errors.append(msg)], [self.warnings.append(msg)], [print(msg)]. *)
Definition append_error (msg : string) : M unit :=
  fun s => Returned tt (mkValidator (errors s ++ [msg])%list (warnings s) (stdout s)).

Definition append_warning (msg : string) : M unit :=
  fun s => Returned tt (mkValidator (errors s) (warnings s ++ [msg])%list (stdout s)).

Definition print (msg : string) : M unit :=
  fun s => Returned tt (mkValidator (errors s) (warnings s) (stdout s ++ [msg])%list).

Definition get_errors : M (list string) :=
  fun s => Returned (errors s) s.

(** [if c: body] with no [else]. *)
Definition when (c : bool) (body : M unit) : M unit :=
  if c then body else ret tt.

(** [for x in l: body]. *)
Fixpoint for_each {A : Type} (l : list A) (body : A -> M unit) : M unit :=
  match l with
  | [] => ret tt
  | x :: l' => body x ;; for_each l' body
  end.

(** [for i, x in enumerate(l): body], counting from [i]. *)
Fixpoint for_enumerate {A : Type} (i : nat) (l : list A)
    (body : nat -> A -> M unit) : M unit :=
  match l with
  | [] => ret tt
  | x :: l' => body i x ;; for_enumerate (S i) l' body
  end.

Definition VALID_KINDS : list string := ["Prompt"; "Agent"].

Definition VALID_CONNECTION_KINDS : list string :=
  ["remote"; "key"; "reference"; "anonymous"].

Definition VALID_TOOL_KINDS : list string :=
  ["function"; "web_search"; "file_search"; "code_interpreter";
   "mcp"; "openapi"; "custom"].

(** [find_expressions(obj, path)]: the pairs the nested function appends to
    the enclosing [expressions] list, in the order it appends them.  A
    mapping is walked in insertion order, a sequence in index order. *)
Fixpoint find_expressions (obj : value) (path : string)
  : list (string * string) :=
  match obj with
  | VDict d =>
      (fix items (d : list (string * value)) : list (string * string) :=
         match d with
         | [] => []
         | (k, v) :: d' =>
             (find_expressions v
                (if negb (path =? "") then path ++ "." ++ k else k)
              ++ items d')%list
         end) d
  | VList l =>
      (fix enumerate (i : nat) (l : list value) : list (string * string) :=
         match l with
         | [] => []
         | item :: l' =>
             (find_expressions item (path ++ "[" ++ nat_str i ++ "]")
              ++ enumerate (S i) l')%list
         end) 0 l
  | VStr s => if String.prefix "=" s then [(path, s)] else []
  | VNone | VBool _ | VInt _ | VFloat _ => []
  end.

(** [expr.split("=Env.")[1].split(")")[0].split(",")[0]] *)
Definition env_var_name (expr : string) : res string :=
  res_bind (py_split expr "=Env.") (fun parts =>
  res_bind (py_index parts 1) (fun after =>
  res_bind (py_split after ")") (fun parts1 =>
  res_bind (py_index parts1 0) (fun head =>
  res_bind (py_split head ",") (fun parts2 =>
  py_index parts2 0))))).

(** What the source of a run is: the file is missing, the YAML parser
    rejects it, or it loads as a value. *)
Inductive source : Type :=
| FileMissing (path : string)
| InvalidYaml (e : string)
| Loaded (data : value).

Section Validator.

(** Python's [repr], used by [str] on the values that are not scalars
    with a fixed rendering. *)
Variable py_repr : value -> string.

(** [str(v)], as an f-string field renders a value. *)
Definition py_str (v : value) : string :=
  match v with
  | VStr s => s
  | VNone => "None"
  | VBool true => "True"
  | VBool false => "False"
  | VInt z => int_str z
  | VFloat _ | VList _ | VDict _ => py_repr v
  end.

Definition missing_field_msg (field : string) : string :=
  "Missing required field: '" ++ field ++ "'".

Definition _validate_required_fields (agent_data : value) : M unit :=
  for_each ["kind"; "name"] (fun field =>
    present <- lift (py_contains agent_data field) ;;
    when (negb present) (append_error (missing_field_msg field))).

Definition invalid_kind_msg (kind : value) : string :=
  "Invalid 'kind': '" ++ py_str kind
    ++ "' (must be one of " ++ list_str VALID_KINDS ++ ")".

Definition _validate_kind (agent_data : value) : M unit :=
  kind <- lift (py_get agent_data "kind") ;;
  when (truthy kind && negb (in_list kind VALID_KINDS))
    (append_error (invalid_kind_msg kind)).

Definition no_model_msg : string := "No 'model' section defined".

Definition invalid_connection_kind_msg (conn_kind : value) : string :=
  "Invalid connection kind: '" ++ py_str conn_kind
    ++ "' (must be one of " ++ list_str VALID_CONNECTION_KINDS ++ ")".

Definition key_credential_msg : string :=
  "'key' connection requires 'apiKey' or 'key'".

(** The [if]/[elif] chain on the connection kind.  A condition
    [a and b not in c] evaluates its membership test only when [a]
    holds, and a false condition falls through to the next [elif]. *)
Definition connection_required_fields (conn_kind connection : value)
  : M unit :=
  remote_lacks <-
    (if py_eq_str conn_kind "remote"
     then has <- lift (py_contains connection "endpoint") ;; ret (negb has)
     else ret false) ;;
  if remote_lacks : bool
  then append_error "'remote' connection requires 'endpoint'"
  else if py_eq_str conn_kind "key"
  then
    has_api_key <- lift (py_contains connection "apiKey") ;;
    lacks_both <-
      (if negb has_api_key
       then has_key <- lift (py_contains connection "key") ;;
            ret (negb has_key)
       else ret false) ;;
    when lacks_both (append_error key_credential_msg)
  else
    reference_lacks <-
      (if py_eq_str conn_kind "reference"
       then has <- lift (py_contains connection "name") ;; ret (negb has)
       else ret false) ;;
    if reference_lacks : bool
    then append_error "'reference' connection requires 'name'"
    else
      anonymous_lacks <-
        (if py_eq_str conn_kind "anonymous"
         then has <- lift (py_contains connection "endpoint") ;;
              ret (negb has)
         else ret false) ;;
      when anonymous_lacks
        (append_error "'anonymous' connection requires 'endpoint'").

Definition _validate_model (agent_data : value) : M unit :=
  model <- lift (py_get agent_data "model") ;;
  if negb (truthy model)
  then append_warning no_model_msg
  else
    has_id <- lift (py_contains model "id") ;;
    when (negb has_id) (append_error (missing_field_msg "model.id")) ;;
    connection <- lift (py_get model "connection") ;;
    when (truthy connection)
      (conn_kind <- lift (py_get connection "kind") ;;
       (if negb (truthy conn_kind)
        then append_error (missing_field_msg "model.connection.kind")
        else when (negb (in_list conn_kind VALID_CONNECTION_KINDS))
               (append_error (invalid_connection_kind_msg conn_kind))) ;;
       connection_required_fields conn_kind connection).

(** The prefix of every message about the tool at index [i]. *)
Definition tool_prefix (i : nat) : string :=
  "Tool #" ++ nat_str (i + 1) ++ ": ".

Definition tool_missing_kind_msg (i : nat) : string :=
  tool_prefix i ++ "Missing 'kind' field".

Definition tool_invalid_kind_msg (i : nat) (tool_kind : value) : string :=
  tool_prefix i ++ "Invalid kind '" ++ py_str tool_kind
    ++ "' (must be one of " ++ list_str VALID_TOOL_KINDS ++ ")".

Definition tool_requires_msg (i : nat) (kind field : string) : string :=
  tool_prefix i ++ "'" ++ kind ++ "' tool requires '" ++ field ++ "'".

(** [if field not in tool: self.errors.append(...)] *)
Definition tool_requires (i : nat) (tool : value) (kind field : string)
  : M unit :=
  has <- lift (py_contains tool field) ;;
  when (negb has) (append_error (tool_requires_msg i kind field)).

(** The tool-specific validations, entered once the kind is known to be
    truthy. *)
Definition tool_specific (i : nat) (tool tool_kind : value) : M unit :=
  if py_eq_str tool_kind "function"
  then tool_requires i tool "function" "name" ;;
       tool_requires i tool "function" "description"
  else if py_eq_str tool_kind "mcp"
  then tool_requires i tool "mcp" "name" ;;
       tool_requires i tool "mcp" "url"
  else if py_eq_str tool_kind "openapi"
  then tool_requires i tool "openapi" "name" ;;
       tool_requires i tool "openapi" "specification"
  else if py_eq_str tool_kind "custom"
  then tool_requires i tool "custom" "name"
  else ret tt.

(** The body of the loop over the tools; [continue] is the first branch
    ending there. *)
Definition validate_tool (i : nat) (tool : value) : M unit :=
  tool_kind <- lift (py_get tool "kind") ;;
  if negb (truthy tool_kind)
  then append_error (tool_missing_kind_msg i)
  else
    when (negb (in_list tool_kind VALID_TOOL_KINDS))
      (append_error (tool_invalid_kind_msg i tool_kind)) ;;
    tool_specific i tool tool_kind.

Definition _validate_tools (agent_data : value) : M unit :=
  tools <- lift (py_get_default agent_data "tools" (VList [])) ;;
  entries <- lift (py_iter tools) ;;
  for_enumerate 0 entries validate_tool.

Definition expressions_header : string :=
  String "010" "📝 PowerFx expressions found:".

Definition _check_powerfx_expressions (agent_data : value) : M unit :=
  let expressions := find_expressions agent_data "" in
  when (match expressions with [] => false | _ :: _ => true end)
    (print expressions_header ;;
     for_each expressions (fun '(path, expr) =>
       print ("   " ++ path ++ ": " ++ expr) ;;
       when (String.prefix "=Env." expr)
         (var_name <- lift (env_var_name expr) ;;
          print ("      → Requires env var: " ++ var_name)))).

Definition validate (src : source) : M bool :=
  match src with
  | FileMissing path =>
      append_error ("File not found: " ++ path) ;;
      ret false
  | InvalidYaml e =>
      append_error ("Invalid YAML syntax: " ++ e) ;;
      ret false
  | Loaded agent_data =>
      _validate_required_fields agent_data ;;
      _validate_kind agent_data ;;
      _validate_model agent_data ;;
      _validate_tools agent_data ;;
      _check_powerfx_expressions agent_data ;;
      errs <- get_errors ;;
      ret (Nat.eqb (List.length errs) 0)
  end.

End Validator.

(* ================================================================== *)
(** ** Printing the results, and the script *)

(** [s * n] for a string. *)
Fixpoint str_mul (s : string) (n : nat) : string :=
  match n with
  | O => ""
  | S n' => s ++ str_mul s n'
  end.

Definition get_warnings : M (list string) :=
  fun s => Returned (warnings s) s.

(** [bool(l)] for a list. *)
Definition nonempty {A : Type} (l : list A) : bool :=
  match l with
  | [] => false
  | _ :: _ => true
  end.

Definition bullet (msg : string) : string := "   • " ++ msg.

Definition failed_header (n : nat) : string :=
  String "010" "❌ Validation FAILED with " ++ nat_str n ++ " error(s):".

Definition warnings_header (n : nat) : string :=
  String "010" "⚠️  " ++ nat_str n ++ " warning(s):".

Definition passed_header : string := String "010" "✅ Validation PASSED!".

(** What [sys.argv] makes of a run: the exit status given to [sys.exit],
    or an exception nothing catches. *)
Inductive exit_status : Type :=
| Exit (code : nat)
| Uncaught (e : exn).

(** [self.agent_data] once [validate] is over: [__init__] sets it to an
    empty mapping and only a successful load assigns it. *)
Definition agent_data_after (src : source) : value :=
  match src with
  | Loaded agent_data => agent_data
  | FileMissing _ | InvalidYaml _ => VDict []
  end.

Definition usage_lines : list string :=
  ["Usage: python validate_yaml.py <path-to-agent.yaml>";
   "Example: python validate_yaml.py agents/mslearnagent.yaml"].

Section Script.

Variable py_repr : value -> string.

(** [print_results], for the file name [self.yaml_file.name] and the
    value of [self.agent_data]. *)
Definition print_results (file_name : string) (agent_data : value)
  : M unit :=
  print (String "010" (str_mul "=" 60)) ;;
  print ("Validating: " ++ file_name) ;;
  print (str_mul "=" 60) ;;
  errs <- get_errors ;;
  when (nonempty errs)
    (print (failed_header (List.length errs)) ;;
     for_each errs (fun error => print (bullet error))) ;;
  warns <- get_warnings ;;
  when (nonempty warns)
    (print (warnings_header (List.length warns)) ;;
     for_each warns (fun warning => print (bullet warning))) ;;
  errs' <- get_errors ;;
  when (negb (nonempty errs'))
    (print passed_header ;;
     name <- lift (py_get agent_data "name") ;;
     print ("   Agent name: " ++ py_str py_repr name) ;;
     kind <- lift (py_get agent_data "kind") ;;
     print ("   Agent kind: " ++ py_str py_repr kind) ;;
     has_description <- lift (py_contains agent_data "description") ;;
     when has_description
       (description <- lift (py_get agent_data "description") ;;
        print ("   Description: " ++ py_str py_repr description))).

(** The file system and the YAML loader: what the path given on the
    command line loads as, and the last component of that path. *)
Variable load : string -> source.
Variable path_name : string -> string.

(** The script: the lines it prints and how it exits, for the command
    line [argv]. *)
Definition main (argv : list string) : list string * exit_status :=
  match argv with
  | [_; path] =>
      match (is_valid <- validate py_repr (load path) ;;
             print_results (path_name path) (agent_data_after (load path)) ;;
             ret is_valid) init with
      | Returned is_valid s => (stdout s, Exit (if is_valid then 0 else 1))
      | Raised e s => (stdout s, Uncaught e)
      end
  | _ => (usage_lines, Exit 1)
  end.

End Script.

(** The status the process ends with: an uncaught exception ends it
    with 1. *)
Definition exit_code (st : exit_status) : nat :=
  match st with
  | Exit code => code
  | Uncaught _ => 1
  end.

(* ================================================================== *)
(** ** Vocabulary of the properties *)

(** The state after [es] was appended to [self.errors]. *)
Definition add_errors (es : list string) (s : validator) : validator :=
  mkValidator (errors s ++ es)%list (warnings s) (stdout s).

Definition is_dict (v : value) : bool :=
  match v with
  | VDict _ => true
  | _ => false
  end.

(** What the first two rules append on a root mapping [d]. *)
Definition required_errors (d : list (string * value)) : list string :=
  ((if dict_has d "kind" then [] else [missing_field_msg "kind"])
   ++ (if dict_has d "name" then [] else [missing_field_msg "name"]))%list.

Definition kind_errors (py_repr : value -> string)
    (d : list (string * value)) : list string :=
  match dict_get d "kind" with
  | Some kind =>
      if truthy kind && negb (in_list kind VALID_KINDS)
      then [invalid_kind_msg py_repr kind]
      else []
  | None => []
  end.

(** The shapes the model and tools rules rely on: a truthy [model] is a
    mapping and so is a truthy [model.connection]; [tools], when given, can
    be iterated and yields mappings only. *)
Definition model_well_shaped (d : list (string * value)) : bool :=
  match dict_get d "model" with
  | None => true
  | Some model =>
      if truthy model
      then match model with
           | VDict m =>
               match dict_get m "connection" with
               | None => true
               | Some connection =>
                   if truthy connection then is_dict connection else true
               end
           | _ => false
           end
      else true
  end.

Definition tools_well_shaped (d : list (string * value)) : bool :=
  match dict_get d "tools" with
  | None => true
  | Some tools =>
      match py_iter tools with
      | inl _ => false
      | inr entries => forallb is_dict entries
      end
  end.

Definition well_shaped (d : list (string * value)) : bool :=
  model_well_shaped d && tools_well_shaped d.


(** Messages of the model rule. *)
Definition model_related (msg : string) : bool :=
  String.prefix "Missing required field: 'model." msg
  || String.prefix "Invalid connection kind: " msg
  || String.prefix "'remote' connection requires " msg
  || String.prefix "'key' connection requires " msg
  || String.prefix "'reference' connection requires " msg
  || String.prefix "'anonymous' connection requires " msg.

(** Messages of the tools rule. *)
Definition tool_related (msg : string) : bool :=
  String.prefix "Tool #" msg.

(** The text of [s] before the first occurrence of [sep] (all of [s] when
    there is none), and the text of [s] before its first character
    satisfying [stop]. *)
Fixpoint before (sep s : string) : string :=
  if String.prefix sep s then ""
  else match s with
       | EmptyString => ""
       | String c s' => String c (before sep s')
       end.

Fixpoint up_to (stop : ascii -> bool) (s : string) : string :=
  match s with
  | EmptyString => ""
  | String c s' => if stop c then "" else String c (up_to stop s')
  end.

Definition is_delimiter (c : ascii) : bool :=
  Ascii.eqb c ")" || Ascii.eqb c ",".

(** The rules that follow the two field rules in [validate]. *)
Definition remaining_rules (py_repr : value -> string) (agent_data : value)
  : M bool :=
  _validate_model py_repr agent_data ;;
  _validate_tools py_repr agent_data ;;
  _check_powerfx_expressions agent_data ;;
  errs <- get_errors ;;
  ret (Nat.eqb (List.length errs) 0).

(** A computation only appends: errors satisfying [PE] and warnings
    satisfying [PW], whether it returns or raises. *)
Definition emits (PE PW : string -> Prop) {A : Type} (m : M A) : Prop :=
  forall s, exists es ws,
    errors (state_of (m s)) = (errors s ++ es)%list
    /\ warnings (state_of (m s)) = (warnings s ++ ws)%list
    /\ Forall PE es /\ Forall PW ws.

(** A computation never raises and appends no error and no warning. *)
Definition silent {A : Type} (m : M A) : Prop :=
  forall s, exists a out,
    m s = Returned a (mkValidator (errors s) (warnings s) (stdout s ++ out)%list).

(** Documents of the examples.  They hold strings only, so [repr] is never
    called on them; the examples run with [no_repr] in its place. *)
Definition no_repr : value -> string := fun _ => "?".

Definition minimal_doc_fields : list (string * value) :=
  [("kind", VStr "Agent"); ("name", VStr "x")].

Definition minimal_doc : value := VDict minimal_doc_fields.

Definition nested_env_doc : value :=
  VDict [("a", VDict [("b", VStr "=Env.FOO,bar)")])].

Definition flat_env_doc : value :=
  VDict [("a", VStr "=Env.FOO")].

Definition key_conn : list (string * value) := [("kind", VStr "key")].

Definition key_model : list (string * value) :=
  [("id", VStr "gpt"); ("connection", VDict key_conn)].

Definition key_doc : list (string * value) :=
  [("kind", VStr "Agent"); ("name", VStr "x"); ("model", VDict key_model)].

Definition kindless_tool_doc : list (string * value) :=
  [("kind", VStr "Agent"); ("name", VStr "x");
   ("tools", VList [VDict [("kind", VStr "web_search")];
                    VDict [("name", VStr "search")];
                    VDict [("kind", VStr "custom")]])].

Definition nameless_doc : list (string * value) := [("kind", VStr "Agent")].


Definition model_without_id_doc : list (string * value) :=
  [("kind", VStr "Agent"); ("name", VStr "x");
   ("model", VDict [("name", VStr "gpt")])].

(** The rules that follow the model rule. *)
Definition after_model (py_repr : value -> string) (agent_data : value)
  : M bool :=
  _validate_tools py_repr agent_data ;;
  _check_powerfx_expressions agent_data ;;
  errs <- get_errors ;;
  ret (Nat.eqb (List.length errs) 0).

(** The report a fresh validator is left with after [validate] ran on a
    root mapping [d], whether [validate] returned or raised. *)
Definition report (py_repr : value -> string) (d : list (string * value))
  : validator :=
  state_of (validate py_repr (Loaded (VDict d)) init).

(** A computation never raises. *)
Definition returns {A : Type} (m : M A) : Prop :=
  forall s, exists a s', m s = Returned a s'.

(** [c] occurs in [s]. *)
Fixpoint has_char (c : ascii) (s : string) : bool :=
  match s with
  | EmptyString => false
  | String c' s' => Ascii.eqb c' c || has_char c s'
  end.

(** A message about the tool at an index other than [i]. *)
Definition other_tool_msg (i : nat) (msg : string) : Prop :=
  exists j r, j <> i /\ msg = tool_prefix j ++ r.

(** What each kind of tool requires, as the tool-specific validations
    have it: the kind, and the fields looked for, in the order of the
    checks. *)
Definition tool_requirements : list (string * list string) :=
  [("function", ["name"; "description"]);
   ("web_search", []);
   ("file_search", []);
   ("code_interpreter", []);
   ("mcp", ["name"; "url"]);
   ("openapi", ["name"; "specification"]);
   ("custom", ["name"])].

(** What the three connection kinds other than "key" require. *)
Definition connection_requirements : list (string * string) :=
  [("remote", "endpoint"); ("reference", "name"); ("anonymous", "endpoint")].

Definition connection_requires_msg (kind field : string) : string :=
  "'" ++ kind ++ "' connection requires '" ++ field ++ "'".

(** [d.get(k)] on a mapping. *)
Definition get_or_none (d : list (string * value)) (k : string) : value :=
  match dict_get d k with
  | Some v => v
  | None => VNone
  end.

(** The error of the model rule about the id of the model [m]. *)
Definition id_errors (m : list (string * value)) : list string :=
  if dict_has m "id" then [] else [missing_field_msg "model.id"].

(** The number of strings beginning with '=' anywhere in a value. *)
Fixpoint expression_leaves (v : value) : nat :=
  match v with
  | VStr s => if String.prefix "=" s then 1 else 0
  | VList l =>
      (fix sum (l : list value) : nat :=
         match l with
         | [] => 0
         | item :: l' => expression_leaves item + sum l'
         end) l
  | VDict d =>
      (fix sum (d : list (string * value)) : nat :=
         match d with
         | [] => 0
         | (_, v') :: d' => expression_leaves v' + sum d'
         end) d
  | VNone | VBool _ | VInt _ | VFloat _ => 0
  end.

(** The strings of a value, in document order: those a mapping holds as
    values (not its keys) and those a sequence holds, at any depth. *)
Fixpoint string_leaves (v : value) : list string :=
  match v with
  | VStr s => [s]
  | VList l =>
      (fix leaves (l : list value) : list string :=
         match l with
         | [] => []
         | item :: l' => (string_leaves item ++ leaves l')%list
         end) l
  | VDict d =>
      (fix leaves (d : list (string * value)) : list string :=
         match d with
         | [] => []
         | (_, v') :: d' => (string_leaves v' ++ leaves d')%list
         end) d
  | VNone | VBool _ | VInt _ | VFloat _ => []
  end.

(** [s] without its first [n] characters. *)
Fixpoint str_drop (n : nat) (s : string) : string :=
  match n, s with
  | S n', String _ s' => str_drop n' s'
  | _, _ => s
  end.

(** The lines the scan prints for one recorded expression, and for all
    of them. *)
Definition expression_lines (pe : string * string) : list string :=
  ("   " ++ fst pe ++ ": " ++ snd pe)
  :: (if String.prefix "=Env." (snd pe)
      then ["      → Requires env var: "
            ++ up_to is_delimiter (before "=Env." (str_drop 5 (snd pe)))]
      else []).

Definition scan_lines (exprs : list (string * string)) : list string :=
  match exprs with
  | [] => []
  | _ :: _ => expressions_header :: flat_map expression_lines exprs
  end.

(** The expressions among [exprs] that name an environment variable. *)
Definition env_expressions (exprs : list (string * string))
  : list (string * string) :=
  filter (fun pe => String.prefix "=Env." (snd pe)) exprs.

(** The lines [print_results] prints for a file name, a mapping in
    [self.agent_data], and the errors and warnings of the validator. *)
Definition passed_lines (py_repr : value -> string)
    (d : list (string * value)) : list string :=
  List.app
    [passed_header;
     "   Agent name: " ++ py_str py_repr (get_or_none d "name");
     "   Agent kind: " ++ py_str py_repr (get_or_none d "kind")]
    (if dict_has d "description"
     then ["   Description: "
           ++ py_str py_repr (get_or_none d "description")]
     else []).

Definition failed_lines (errs : list string) : list string :=
  if nonempty errs
  then failed_header (List.length errs) :: map bullet errs
  else [].

Definition warning_lines (warns : list string) : list string :=
  if nonempty warns
  then warnings_header (List.length warns) :: map bullet warns
  else [].

Definition heading_lines (file_name : string) : list string :=
  [String "010" (str_mul "=" 60); "Validating: " ++ file_name;
   str_mul "=" 60].

(** Further documents of the examples. *)
Definition connection_doc (connection : list (string * value))
  : list (string * value) :=
  [("kind", VStr "Agent"); ("name", VStr "x");
   ("model", VDict [("id", VStr "gpt"); ("connection", VDict connection)])].

Definition connection_model (connection : list (string * value))
  : list (string * value) :=
  [("id", VStr "gpt"); ("connection", VDict connection)].

Definition tools_doc (entries : list value) : list (string * value) :=
  [("kind", VStr "Agent"); ("name", VStr "x"); ("tools", VList entries)].

Definition null_fields_doc : list (string * value) :=
  [("kind", VNone); ("name", VNone)].

(** A loader for the examples: one file that loads as the minimal
    document, one that loads as a document without a name, every other
    path missing. *)
Definition example_load (path : string) : source :=
  if path =? "agent.yaml" then Loaded minimal_doc
  else if path =? "draft.yaml" then Loaded (VDict nameless_doc)
  else FileMissing path.

(** A computation always raises. *)
Definition raises {A : Type} (m : M A) : Prop :=
  forall s, exists e s', m s = Raised e s'.

(** A computation leaves [msg] among the errors, however it ends. *)
Definition reports (msg : string) {A : Type} (m : M A) : Prop :=
  forall s, In msg (errors (state_of (m s))).

(** The root mapping [d], with model [m] and connection [c], after
    [d["model"]["connection"][field] = v]. *)
Definition add_connection_field (d m c : list (string * value))
    (field : string) (v : value) : list (string * value) :=
  dict_set d "model"
    (VDict (dict_set m "connection" (VDict (dict_set c field v)))).

(** The predicate on messages that holds of all of them. *)
Definition anything : string -> Prop := fun _ => True.

Definition ill_typed_tools_doc : list (string * value) :=
  [("name", VStr "x"); ("tools", VInt 5)].


Definition empty_model_doc : list (string * value) :=
  [("kind", VStr "Agent"); ("name", VStr "x"); ("model", VDict [])].

(* ================================================================== *)
(** ** Strings *)

Lemma prefix_inv (p m : string) :
  String.prefix p m = true -> exists r, m = p ++ r.
Proof.
  revert m. induction p as [|a p IH]; intros m H.
  - exists m. reflexivity.
  - destruct m as [|b m]; simpl in H; [discriminate|].
    destruct (ascii_dec a b) as [->|]; [|discriminate].
    destruct (IH m H) as [r ->]. exists r. reflexivity.
Qed.

Lemma prefix_app (p r : string) : String.prefix p (p ++ r) = true.
Proof.
  induction p as [|a p IH]; simpl.
  - destruct r; reflexivity.
  - destruct (ascii_dec a a); [exact IH | congruence].
Qed.

Lemma append_assoc (a b c : string) : (a ++ b) ++ c = a ++ b ++ c.
Proof. induction a as [|x a IH]; simpl; [|rewrite IH]; reflexivity. Qed.

Lemma append_inj_l (p a b : string) : p ++ a = p ++ b -> a = b.
Proof.
  induction p as [|c p IH]; simpl; intros H; [exact H|].
  injection H as H. exact (IH H).
Qed.

Lemma str_contains_unfold (x h : string) :
  str_contains x h =
  if String.prefix x h then true
  else match h with
       | EmptyString => false
       | String _ h' => str_contains x h'
       end.
Proof. destruct h; reflexivity. Qed.

Lemma str_contains_prefix (x h : string) :
  String.prefix x h = true -> str_contains x h = true.
Proof. intros H. rewrite str_contains_unfold, H. reflexivity. Qed.

Lemma str_contains_app (x p r : string) : str_contains x (p ++ x ++ r) = true.
Proof.
  induction p as [|c p IH]; cbn [append].
  - apply str_contains_prefix, prefix_app.
  - rewrite str_contains_unfold.
    destruct (String.prefix x _); [reflexivity | exact IH].
Qed.

(* ================================================================== *)
(** ** The monad *)

Lemma bind_returned {A B : Type} (m : M A) (k : A -> M B) s a s' :
  m s = Returned a s' -> bind m k s = k a s'.
Proof. intros H. unfold bind. rewrite H. reflexivity. Qed.

Lemma bind_raised {A B : Type} (m : M A) (k : A -> M B) s e s' :
  m s = Raised e s' -> bind m k s = Raised e s'.
Proof. intros H. unfold bind. rewrite H. reflexivity. Qed.

Lemma bind_assoc {A B C : Type} (m : M A) (f : A -> M B) (g : B -> M C) s :
  bind (bind m f) g s = bind m (fun a => bind (f a) g) s.
Proof. unfold bind. destruct (m s); reflexivity. Qed.

Lemma bind_ext {A B : Type} (m : M A) (f g : A -> M B) s :
  (forall a s', f a s' = g a s') -> bind m f s = bind m g s.
Proof. intros H. unfold bind. destruct (m s); [apply H | reflexivity]. Qed.

Lemma validator_eta (s : validator) :
  mkValidator (errors s) (warnings s) (stdout s) = s.
Proof. destruct s; reflexivity. Qed.

Lemma add_errors_nil (s : validator) : add_errors [] s = s.
Proof. unfold add_errors. rewrite app_nil_r. apply validator_eta. Qed.

Lemma add_errors_app (es es' : list string) (s : validator) :
  add_errors es' (add_errors es s) = add_errors (es ++ es')%list s.
Proof. unfold add_errors; simpl. rewrite app_assoc. reflexivity. Qed.

Lemma append_error_eq (msg : string) (s : validator) :
  append_error msg s = Returned tt (add_errors [msg] s).
Proof. reflexivity. Qed.

Section Emits.

Variables PE PW : string -> Prop.

Lemma emits_ret {A : Type} (a : A) : emits PE PW (ret a).
Proof.
  intros s. exists [], []. simpl. rewrite !app_nil_r. auto.
Qed.

Lemma emits_lift {A : Type} (r : res A) : emits PE PW (lift r).
Proof.
  intros s. exists [], []. unfold lift.
  destruct r; simpl; rewrite !app_nil_r; auto.
Qed.

Lemma emits_bind {A B : Type} (m : M A) (k : A -> M B) :
  emits PE PW m -> (forall a, emits PE PW (k a)) -> emits PE PW (bind m k).
Proof.
  intros Hm Hk s. unfold bind.
  destruct (Hm s) as (es & ws & He & Hw & Fe & Fw).
  destruct (m s) as [a s'|e s']; simpl in He, Hw.
  - destruct (Hk a s') as (es' & ws' & He' & Hw' & Fe' & Fw').
    exists (es ++ es')%list, (ws ++ ws')%list.
    rewrite He', Hw', He, Hw, !app_assoc.
    repeat split; auto using Forall_app; apply Forall_app; auto.
  - exists es, ws. simpl. auto.
Qed.

Lemma emits_append_error (msg : string) :
  PE msg -> emits PE PW (append_error msg).
Proof.
  intros H s. exists [msg], []. simpl. rewrite app_nil_r. auto.
Qed.

Lemma emits_append_warning (msg : string) :
  PW msg -> emits PE PW (append_warning msg).
Proof.
  intros H s. exists [], [msg]. simpl. rewrite app_nil_r. auto.
Qed.

Lemma emits_print (msg : string) : emits PE PW (print msg).
Proof.
  intros s. exists [], []. simpl. rewrite !app_nil_r. auto.
Qed.

Lemma emits_get_errors : emits PE PW get_errors.
Proof.
  intros s. exists [], []. simpl. rewrite !app_nil_r. auto.
Qed.

Lemma emits_when (c : bool) (body : M unit) :
  emits PE PW body -> emits PE PW (when c body).
Proof.
  intros H. destruct c; simpl; [exact H | apply emits_ret].
Qed.

Lemma emits_for_each {A : Type} (l : list A) (body : A -> M unit) :
  (forall x, emits PE PW (body x)) -> emits PE PW (for_each l body).
Proof.
  intros H. induction l as [|x l IH]; simpl.
  - apply emits_ret.
  - apply emits_bind; [apply H | intros _; exact IH].
Qed.

Lemma emits_for_enumerate {A : Type} (l : list A)
    (body : nat -> A -> M unit) :
  (forall i x, emits PE PW (body i x)) ->
  forall i, emits PE PW (for_enumerate i l body).
Proof.
  intros H. induction l as [|x l IH]; intros i; simpl.
  - apply emits_ret.
  - apply emits_bind; [apply H | intros _; apply IH].
Qed.

End Emits.

Lemma emits_weaken (PE PW QE QW : string -> Prop) {A : Type} (m : M A) :
  (forall msg, PE msg -> QE msg) -> (forall msg, PW msg -> QW msg) ->
  emits PE PW m -> emits QE QW m.
Proof.
  intros HE HW H s. destruct (H s) as (es & ws & He & Hw & Fe & Fw).
  exists es, ws. repeat split; auto.
  - eapply Forall_impl; [exact HE | exact Fe].
  - eapply Forall_impl; [exact HW | exact Fw].
Qed.

(** One step of a proof that a rule only appends messages of a given
    shape: follow the structure of the rule. *)
Ltac emits_step :=
  match goal with
  | |- emits _ _ (bind _ _) => apply emits_bind; [|intro]
  | |- emits _ _ (lift _) => apply emits_lift
  | |- emits _ _ (ret _) => apply emits_ret
  | |- emits _ _ (print _) => apply emits_print
  | |- emits _ _ get_errors => apply emits_get_errors
  | |- emits _ _ (when _ _) => apply emits_when
  | |- emits _ _ (for_each _ _) => apply emits_for_each; intro
  | |- emits _ _ (for_enumerate _ _ _) => apply emits_for_enumerate; intros
  | |- emits _ _ (append_error _) => apply emits_append_error
  | |- emits _ _ (append_warning _) => apply emits_append_warning
  | |- emits _ _ (if ?c then _ else _) => destruct c
  | |- emits _ _ (let '(_, _) := ?p in _) => destruct p
  end.

Section Silent.

Lemma silent_ret {A : Type} (a : A) : silent (ret a).
Proof.
  intros s. exists a, []. unfold ret. rewrite app_nil_r, validator_eta.
  reflexivity.
Qed.

Lemma silent_print (msg : string) : silent (print msg).
Proof. intros s. exists tt, [msg]. reflexivity. Qed.

Lemma silent_lift {A : Type} (r : res A) (a : A) :
  r = inr a -> silent (lift r).
Proof.
  intros -> s. exists a, []. unfold lift.
  rewrite app_nil_r, validator_eta. reflexivity.
Qed.

Lemma silent_bind {A B : Type} (m : M A) (k : A -> M B) :
  silent m -> (forall a, silent (k a)) -> silent (bind m k).
Proof.
  intros Hm Hk s. destruct (Hm s) as (a & out & E).
  rewrite (bind_returned _ _ _ _ _ E).
  destruct (Hk a (mkValidator (errors s) (warnings s) (stdout s ++ out)%list))
    as (b & out' & E').
  exists b, (out ++ out')%list. rewrite E'. simpl.
  rewrite app_assoc. reflexivity.
Qed.

Lemma silent_when (c : bool) (body : M unit) :
  silent body -> silent (when c body).
Proof. intros H. destruct c; simpl; [exact H | apply silent_ret]. Qed.

Lemma silent_for_each {A : Type} (l : list A) (body : A -> M unit) :
  (forall x, silent (body x)) -> silent (for_each l body).
Proof.
  intros H. induction l as [|x l IH]; simpl.
  - apply silent_ret.
  - apply silent_bind; [apply H | intros _; exact IH].
Qed.

End Silent.

(* ================================================================== *)
(** ** [str.split] and the environment-variable name *)

Lemma split_go_cons (sep s : string) (skip : nat) (cur : string) :
  exists h t, split_go sep s skip cur = h :: t.
Proof.
  revert skip cur. induction s as [|c s IH]; intros skip cur; cbn [split_go].
  - eauto.
  - destruct skip; [|apply IH].
    destruct (String.prefix sep (String c s)); [eauto | apply IH].
Qed.

Lemma before_unfold (sep s : string) :
  before sep s =
  if String.prefix sep s then ""
  else match s with
       | EmptyString => ""
       | String c s' => String c (before sep s')
       end.
Proof. destruct s; reflexivity. Qed.

(** The first piece of a split is the text before the first separator. *)
Lemma split_go_head (sep s cur : string) :
  hd "" (split_go sep s 0 cur) = rev_string (before sep s) cur.
Proof.
  revert cur. induction s as [|c s IH]; intros cur.
  - rewrite before_unfold. cbn [split_go hd].
    destruct (String.prefix sep ""); reflexivity.
  - rewrite before_unfold. cbn [split_go].
    destruct (String.prefix sep (String c s)); [reflexivity|].
    rewrite IH. reflexivity.
Qed.

Lemma py_split_index0 (s sep : string) :
  sep <> "" ->
  res_bind (py_split s sep) (fun parts => py_index parts 0)
  = inr (before sep s).
Proof.
  intros Hsep. destruct sep as [|a sep]; [congruence|].
  unfold py_split, res_bind, py_index.
  pose proof (split_go_head (String a sep) s "") as Hh.
  destruct (split_go_cons (String a sep) s 0 "") as (h & t & E).
  rewrite E in *. simpl in *. rewrite Hh. reflexivity.
Qed.

Lemma before_delimiters (x : string) :
  before "," (before ")" x) = up_to is_delimiter x.
Proof.
  induction x as [|c x IH]; [reflexivity|].
  rewrite (before_unfold ")"). cbn [String.prefix up_to].
  unfold is_delimiter.
  destruct (ascii_dec ")" c) as [<-|Hc].
  - destruct x; reflexivity.
  - rewrite (before_unfold ","). cbn [String.prefix].
    destruct (ascii_dec "," c) as [<-|Hc'].
    + destruct (before ")" x); reflexivity.
    + rewrite IH.
      assert (E1 : Ascii.eqb c ")" = false)
        by (apply Ascii.eqb_neq; congruence).
      assert (E2 : Ascii.eqb c "," = false)
        by (apply Ascii.eqb_neq; congruence).
      rewrite E1, E2. reflexivity.
Qed.

(** The expression after its leading "=Env." is cut at the next "=Env.",
    and the piece kept is then cut at the first delimiter. *)
Lemma env_var_name_eq (rest : string) :
  env_var_name ("=Env." ++ rest)
  = inr (up_to is_delimiter (before "=Env." rest)).
Proof.
  unfold env_var_name.
  assert (E1 : res_bind (py_split ("=Env." ++ rest) "=Env.")
                 (fun parts => py_index parts 1)
               = inr (before "=Env." rest)).
  { unfold py_split, res_bind, py_index. cbn.
    replace (String.prefix "" rest) with true by (destruct rest; reflexivity).
    pose proof (split_go_head "=Env." rest "") as Hh.
    destruct (split_go_cons "=Env." rest 0 "") as (h & t & E).
    rewrite E in *. simpl in Hh. rewrite Hh. reflexivity. }
  unfold res_bind in *.
  destruct (py_split ("=Env." ++ rest) "=Env.") as [e|parts]; [discriminate|].
  rewrite E1.
  pose proof (py_split_index0 (before "=Env." rest) ")") as E2.
  unfold res_bind in E2.
  destruct (py_split (before "=Env." rest) ")") as [e|parts1];
    [discriminate E2; discriminate|].
  rewrite E2 by discriminate.
  pose proof (py_split_index0 (before ")" (before "=Env." rest)) ",") as E3.
  unfold res_bind in E3.
  destruct (py_split (before ")" (before "=Env." rest)) ",") as [e|parts2];
    [discriminate E3; discriminate|].
  rewrite E3 by discriminate.
  rewrite before_delimiters. reflexivity.
Qed.

Lemma before_absent (sep s : string) :
  sep <> "" -> str_contains sep s = false -> before sep s = s.
Proof.
  intros Hsep. induction s as [|c s IH]; intros H.
  - rewrite before_unfold. destruct (String.prefix sep ""); reflexivity.
  - rewrite str_contains_unfold in H. rewrite before_unfold.
    destruct (String.prefix sep (String c s)); [discriminate|].
    rewrite (IH H). reflexivity.
Qed.

(* ================================================================== *)
(** ** The rules, one by one *)

Section Rules.

Variable py_repr : value -> string.

(** On a root mapping the first two rules return, having appended
    [required_errors] and [kind_errors]. *)
Lemma required_fields_dict (d : list (string * value)) (s : validator) :
  _validate_required_fields (VDict d) s
  = Returned tt (add_errors (required_errors d) s).
Proof.
  unfold _validate_required_fields, required_errors, for_each, bind, lift,
    py_contains, when, ret.
  destruct (dict_has d "kind"), (dict_has d "name"); simpl;
    unfold add_errors; simpl;
    rewrite <- ?app_assoc, ?app_nil_r, ?validator_eta; reflexivity.
Qed.

Lemma validate_kind_dict (d : list (string * value)) (s : validator) :
  _validate_kind py_repr (VDict d) s
  = Returned tt (add_errors (kind_errors py_repr d) s).
Proof.
  unfold _validate_kind, kind_errors, bind, lift, py_get, py_get_default,
    when, ret.
  destruct (dict_get d "kind") as [kind|]; cbv beta iota.
  - destruct (truthy kind && negb (in_list kind VALID_KINDS));
      rewrite ?add_errors_nil; reflexivity.
  - rewrite add_errors_nil. reflexivity.
Qed.

(** The model rule appends model messages only, and no warning but the
    one about a missing section. *)
Lemma validate_model_emits (agent_data : value) :
  emits (fun msg => model_related msg = true) (fun w => w = no_model_msg)
    (_validate_model py_repr agent_data).
Proof.
  unfold _validate_model, connection_required_fields.
  repeat emits_step; reflexivity.
Qed.

Lemma tool_related_prefix (i : nat) (r : string) :
  tool_related (tool_prefix i ++ r) = true.
Proof.
  unfold tool_related, tool_prefix. rewrite !append_assoc. apply prefix_app.
Qed.

(** The tools rule appends tool messages only, and no warning. *)
Lemma validate_tools_emits (agent_data : value) :
  emits (fun msg => tool_related msg = true) (fun _ => False)
    (_validate_tools py_repr agent_data).
Proof.
  unfold _validate_tools, validate_tool, tool_specific, tool_requires.
  repeat (cbv beta; emits_step); apply tool_related_prefix.
Qed.

(** The expression scan never raises and only prints. *)
Lemma check_powerfx_silent (agent_data : value) :
  silent (_check_powerfx_expressions agent_data).
Proof.
  unfold _check_powerfx_expressions.
  apply silent_when, silent_bind; [apply silent_print | intros _].
  apply silent_for_each. intros [path expr].
  apply silent_bind; [apply silent_print | intros _].
  destruct (String.prefix "=Env." expr) eqn:E; simpl; [|apply silent_ret].
  destruct (prefix_inv _ _ E) as [rest ->].
  apply silent_bind; [|intros; apply silent_print].
  eapply silent_lift, env_var_name_eq.
Qed.

Lemma check_powerfx_emits (PE PW : string -> Prop) (agent_data : value) :
  emits PE PW (_check_powerfx_expressions agent_data).
Proof.
  intros s. destruct (check_powerfx_silent agent_data s) as (a & out & E).
  exists [], []. rewrite E. simpl. rewrite !app_nil_r. auto.
Qed.

Lemma validate_dict (d : list (string * value)) (s : validator) :
  validate py_repr (Loaded (VDict d)) s
  = remaining_rules py_repr (VDict d)
      (add_errors (required_errors d ++ kind_errors py_repr d)%list s).
Proof.
  unfold validate.
  rewrite (bind_returned _ _ _ _ _ (required_fields_dict d s)).
  rewrite (bind_returned _ _ _ _ _ (validate_kind_dict d _)).
  rewrite add_errors_app. reflexivity.
Qed.

Lemma remaining_rules_emits (agent_data : value) :
  emits (fun msg => model_related msg = true \/ tool_related msg = true)
    (fun w => w = no_model_msg)
    (remaining_rules py_repr agent_data).
Proof.
  unfold remaining_rules.
  apply emits_bind; [|intros _; apply emits_bind; [|intros _]].
  - eapply emits_weaken; [| |apply validate_model_emits]; auto.
  - eapply emits_weaken; [| |apply validate_tools_emits]; simpl; tauto.
  - apply emits_bind; [apply check_powerfx_emits | intros _].
    repeat emits_step.
Qed.

End Rules.

(* ================================================================== *)
(** ** Computations that never raise, and errors that stay *)

Lemma returns_ret {A : Type} (a : A) : returns (ret a).
Proof. intros s. exists a, s. reflexivity. Qed.

Lemma returns_lift {A : Type} (r : res A) (a : A) :
  r = inr a -> returns (lift r).
Proof. intros -> s. exists a, s. reflexivity. Qed.

Lemma returns_bind {A B : Type} (m : M A) (k : A -> M B) :
  returns m -> (forall a, returns (k a)) -> returns (bind m k).
Proof.
  intros Hm Hk s. destruct (Hm s) as (a & s' & E).
  rewrite (bind_returned _ _ _ _ _ E). apply Hk.
Qed.

Lemma returns_append_error (msg : string) : returns (append_error msg).
Proof. intros s. eexists _, _. reflexivity. Qed.

Lemma returns_append_warning (msg : string) : returns (append_warning msg).
Proof. intros s. eexists _, _. reflexivity. Qed.

Lemma returns_get_errors : returns get_errors.
Proof. intros s. eexists _, _. reflexivity. Qed.

Lemma returns_when (c : bool) (body : M unit) :
  returns body -> returns (when c body).
Proof. intros H. destruct c; simpl; [exact H | apply returns_ret]. Qed.

Lemma silent_returns {A : Type} (m : M A) : silent m -> returns m.
Proof. intros H s. destruct (H s) as (a & out & E). eauto. Qed.

Ltac returns_step :=
  match goal with
  | |- returns (bind _ _) => apply returns_bind; [|intro]
  | |- returns (lift _) => eapply returns_lift; reflexivity
  | |- returns (ret _) => apply returns_ret
  | |- returns get_errors => apply returns_get_errors
  | |- returns (when _ _) => apply returns_when
  | |- returns (append_error _) => apply returns_append_error
  | |- returns (append_warning _) => apply returns_append_warning
  | |- returns (if ?c then _ else _) => destruct c
  end.

Lemma emits_incl (PE PW : string -> Prop) {A : Type} (m : M A) s msg :
  emits PE PW m -> In msg (errors s) -> In msg (errors (state_of (m s))).
Proof.
  intros H Hin. destruct (H s) as (es & ws & He & _).
  rewrite He. apply in_or_app. auto.
Qed.

Lemma reports_append_error (msg : string) : reports msg (append_error msg).
Proof. intros s. simpl. apply in_or_app. simpl. auto. Qed.

Lemma reports_bind_l (PE PW : string -> Prop) {A B : Type}
    (m : M A) (k : A -> M B) (msg : string) :
  reports msg m -> (forall a, emits PE PW (k a)) -> reports msg (bind m k).
Proof.
  intros Hm Hk s. specialize (Hm s). unfold bind.
  destruct (m s) as [a s'|e s']; simpl in *; [|exact Hm].
  eapply emits_incl; [apply Hk | exact Hm].
Qed.

Lemma reports_bind_lift {A B : Type} (r : res A) (a : A) (k : A -> M B)
    (msg : string) :
  r = inr a -> reports msg (k a) -> reports msg (bind (lift r) k).
Proof. intros -> H s. apply H. Qed.

Lemma result_of_returned {A : Type} (m : M A) s a s' :
  m s = Returned a s' -> state_of (m s) = s'.
Proof. intros ->. reflexivity. Qed.

Lemma returns_bind_lift {A B : Type} (r : res A) (a : A) (k : A -> M B) :
  r = inr a -> returns (k a) -> returns (bind (lift r) k).
Proof. intros -> H s. apply H. Qed.

Lemma bind_inv {A B : Type} (m : M A) (k : A -> M B) s b st :
  bind m k s = Returned b st ->
  exists a s', m s = Returned a s' /\ k a s' = Returned b st.
Proof.
  unfold bind. destruct (m s) as [a s'|e s']; [eauto | discriminate].
Qed.

Lemma length_eqb_0 {A : Type} (l : list A) :
  Nat.eqb (List.length l) 0 = true <-> l = [].
Proof. destruct l; simpl; split; congruence. Qed.

Section Totality.

Variable py_repr : value -> string.

(** What [validate] returns is [len(self.errors) == 0] of the state it
    leaves. *)
Lemma validate_result (src : source) (s : validator) b st :
  validate py_repr src s = Returned b st ->
  b = Nat.eqb (List.length (errors st)) 0.
Proof.
  destruct src as [path|e|agent_data]; simpl; intros H.
  - injection H as <- <-. simpl. rewrite length_app, Nat.add_comm.
    reflexivity.
  - injection H as <- <-. simpl. rewrite length_app, Nat.add_comm.
    reflexivity.
  - do 5 (apply bind_inv in H; destruct H as (? & ? & _ & H)).
    apply bind_inv in H. destruct H as (errs & s' & E & H).
    injection E as <- <-. injection H as <- <-. reflexivity.
Qed.

Lemma validate_tool_dict_returns (i : nat) (t : list (string * value)) :
  returns (validate_tool py_repr i (VDict t)).
Proof.
  unfold validate_tool, tool_specific, tool_requires.
  repeat returns_step.
Qed.

Lemma for_enumerate_returns (entries : list value) :
  forallb is_dict entries = true ->
  forall i, returns (for_enumerate i entries (validate_tool py_repr)).
Proof.
  induction entries as [|tool entries IH]; simpl; intros H i.
  - apply returns_ret.
  - apply andb_prop in H. destruct H as [Ht H].
    destruct tool; try discriminate Ht.
    apply returns_bind; [apply validate_tool_dict_returns | intros _].
    apply IH, H.
Qed.

Lemma validate_tools_returns (d : list (string * value)) :
  tools_well_shaped d = true -> returns (_validate_tools py_repr (VDict d)).
Proof.
  unfold tools_well_shaped, _validate_tools. intros H.
  eapply returns_bind_lift; [reflexivity|].
  destruct (dict_get d "tools") as [tools|].
  - destruct (py_iter tools) as [e|entries] eqn:E; [discriminate|].
    eapply returns_bind_lift; [reflexivity|].
    apply for_enumerate_returns, H.
  - eapply returns_bind_lift; [reflexivity|]. apply returns_ret.
Qed.

Lemma connection_required_fields_returns conn_kind c :
  returns (connection_required_fields conn_kind (VDict c)).
Proof.
  unfold connection_required_fields. repeat returns_step.
Qed.

Lemma validate_model_returns (d : list (string * value)) :
  model_well_shaped d = true -> returns (_validate_model py_repr (VDict d)).
Proof.
  unfold model_well_shaped, _validate_model. intros H.
  eapply returns_bind_lift; [reflexivity|].
  destruct (dict_get d "model") as [model|];
    [|apply returns_append_warning].
  destruct (truthy model); [|apply returns_append_warning].
  destruct model as [| | | | | |m]; try discriminate H. cbn [negb].
  eapply returns_bind_lift; [reflexivity|].
  apply returns_bind; [repeat returns_step | intros _].
  eapply returns_bind_lift; [reflexivity|].
  destruct (dict_get m "connection") as [connection|];
    [|apply returns_ret].
  destruct (truthy connection); [|apply returns_ret].
  destruct connection as [| | | | | |c]; try discriminate H. cbn [when].
  eapply returns_bind_lift; [reflexivity|].
  apply returns_bind; [repeat returns_step | intros _].
  apply connection_required_fields_returns.
Qed.

(** [validate] returns on every root mapping whose sections have the
    shapes the rules rely on. *)
Lemma validate_returns (d : list (string * value)) :
  well_shaped d = true -> returns (validate py_repr (Loaded (VDict d))).
Proof.
  unfold well_shaped. intros H. apply andb_prop in H. destruct H as [Hm Ht].
  intros s. rewrite validate_dict. unfold remaining_rules.
  generalize (add_errors (required_errors d ++ kind_errors py_repr d) s).
  apply returns_bind; [apply validate_model_returns, Hm | intros _].
  apply returns_bind; [apply validate_tools_returns, Ht | intros _].
  apply returns_bind; [apply silent_returns, check_powerfx_silent | intros _].
  repeat returns_step.
Qed.

End Totality.

(* ================================================================== *)
(** ** Where [validate] raises *)

Lemma raises_lift {A : Type} (r : res A) (e : exn) :
  r = inl e -> raises (lift r).
Proof. intros -> s. exists e, s. reflexivity. Qed.

Lemma raises_bind_l {A B : Type} (m : M A) (k : A -> M B) :
  raises m -> raises (bind m k).
Proof.
  intros H s. destruct (H s) as (e & s' & E).
  rewrite (bind_raised _ _ _ _ _ E). eauto.
Qed.

Lemma raises_bind_r {A B : Type} (m : M A) (k : A -> M B) :
  returns m -> (forall a, raises (k a)) -> raises (bind m k).
Proof.
  intros Hm Hk s. destruct (Hm s) as (a & s' & E).
  rewrite (bind_returned _ _ _ _ _ E). apply Hk.
Qed.

Lemma raises_bind_lift {A B : Type} (r : res A) (a : A) (k : A -> M B) :
  r = inr a -> raises (k a) -> raises (bind (lift r) k).
Proof. intros -> H s. apply H. Qed.

Lemma returned_not_raised {A : Type} (m : M A) s :
  (exists a s', m s = Returned a s') -> (exists e s', m s = Raised e s') ->
  False.
Proof. intros (a & s1 & E) (e & s2 & E'). congruence. Qed.

Section Raising.

Variable py_repr : value -> string.

Lemma required_fields_returns (agent_data : value) (a b : bool) :
  py_contains agent_data "kind" = inr a ->
  py_contains agent_data "name" = inr b ->
  returns (_validate_required_fields agent_data).
Proof.
  intros Ha Hb. unfold _validate_required_fields, for_each.
  eapply returns_bind; [|intros _].
  - eapply returns_bind_lift; [exact Ha | repeat returns_step].
  - eapply returns_bind; [|intros _; apply returns_ret].
    eapply returns_bind_lift; [exact Hb | repeat returns_step].
Qed.

(** No root but a mapping gets through the first two rules. *)
Lemma non_mapping_root_always_raises (agent_data : value) :
  is_dict agent_data = false -> raises (validate py_repr (Loaded agent_data)).
Proof.
  intros H. unfold validate.
  destruct agent_data as [| | | |str|l|d]; try discriminate H;
    try (apply raises_bind_l, raises_bind_l, raises_bind_l;
         eapply raises_lift; reflexivity).
  - apply raises_bind_r;
      [eapply required_fields_returns; reflexivity | intros _].
    apply raises_bind_l, raises_bind_l. eapply raises_lift. reflexivity.
  - apply raises_bind_r;
      [eapply required_fields_returns; reflexivity | intros _].
    apply raises_bind_l, raises_bind_l. eapply raises_lift. reflexivity.
Qed.

Lemma validate_tool_non_dict_raises (i : nat) (tool : value) :
  is_dict tool = false -> raises (validate_tool py_repr i tool).
Proof.
  intros H. unfold validate_tool. apply raises_bind_l.
  destruct tool; try discriminate H; eapply raises_lift; reflexivity.
Qed.

Lemma for_enumerate_raises (entries : list value) :
  forallb is_dict entries = false ->
  forall i, raises (for_enumerate i entries (validate_tool py_repr)).
Proof.
  induction entries as [|tool entries IH]; simpl; intros H i;
    [discriminate|].
  destruct (is_dict tool) eqn:Ht; simpl in H.
  - destruct tool; try discriminate Ht.
    apply raises_bind_r; [apply validate_tool_dict_returns | intros _].
    apply IH, H.
  - apply raises_bind_l, validate_tool_non_dict_raises, Ht.
Qed.

Lemma validate_tools_raises (d : list (string * value)) :
  tools_well_shaped d = false -> raises (_validate_tools py_repr (VDict d)).
Proof.
  unfold tools_well_shaped, _validate_tools. intros H.
  eapply raises_bind_lift; [reflexivity|].
  destruct (dict_get d "tools") as [tools|]; [|discriminate].
  destruct (py_iter tools) as [e|entries] eqn:E.
  - apply raises_bind_l. eapply raises_lift. reflexivity.
  - eapply raises_bind_lift; [reflexivity|]. apply for_enumerate_raises, H.
Qed.

Lemma validate_model_raises (d : list (string * value)) :
  model_well_shaped d = false -> raises (_validate_model py_repr (VDict d)).
Proof.
  unfold model_well_shaped, _validate_model. intros H.
  eapply raises_bind_lift; [reflexivity|].
  destruct (dict_get d "model") as [model|]; [|discriminate].
  destruct (truthy model) eqn:T; [|discriminate]. cbn [negb].
  destruct model as [| | | |str|l|m]; try discriminate H;
    try (apply raises_bind_l; eapply raises_lift; reflexivity).
  - eapply raises_bind_lift; [reflexivity|].
    apply raises_bind_r; [repeat returns_step | intros _].
    apply raises_bind_l. eapply raises_lift. reflexivity.
  - eapply raises_bind_lift; [reflexivity|].
    apply raises_bind_r; [repeat returns_step | intros _].
    apply raises_bind_l. eapply raises_lift. reflexivity.
  - eapply raises_bind_lift; [reflexivity|].
    apply raises_bind_r; [repeat returns_step | intros _].
    eapply raises_bind_lift; [reflexivity|].
    destruct (dict_get m "connection") as [connection|]; [|discriminate].
    destruct (truthy connection) eqn:Tc; [|discriminate]. cbn [when].
    apply raises_bind_l.
    destruct connection; try discriminate H; eapply raises_lift; reflexivity.
Qed.

(** On a root mapping [validate] returns exactly when the sections have
    the shapes the rules rely on; it raises otherwise. *)
Lemma validate_raises (d : list (string * value)) :
  well_shaped d = false -> raises (validate py_repr (Loaded (VDict d))).
Proof.
  unfold well_shaped. intros H s. rewrite validate_dict.
  unfold remaining_rules.
  generalize (add_errors (required_errors d ++ kind_errors py_repr d) s).
  destruct (model_well_shaped d) eqn:Hm; simpl in H.
  - apply raises_bind_r; [apply validate_model_returns, Hm | intros _].
    apply raises_bind_l, validate_tools_raises, H.
  - apply raises_bind_l, validate_model_raises, Hm.
Qed.

(** X5.  On a root mapping [validate] returns, rather than raises, exactly
    when a truthy model is a mapping, a truthy connection of it is a
    mapping, and the tools, when given, can be iterated and are all
    mappings. *)
Lemma validate_returns_iff (d : list (string * value)) (s : validator) :
  (exists b st, validate py_repr (Loaded (VDict d)) s = Returned b st)
  <-> well_shaped d = true.
Proof.
  split.
  - intros H. destruct (well_shaped d) eqn:E; [reflexivity|].
    destruct (returned_not_raised _ _ H (validate_raises d E s)).
  - intros H. apply validate_returns, H.
Qed.

End Raising.

(* ================================================================== *)
(** ** The messages of different tools *)

Lemma nat_str_no_colon (n : nat) : has_char ":" (nat_str n) = false.
Proof.
  unfold nat_str. generalize (Nat.to_uint n). intros d.
  induction d; simpl; auto.
Qed.

Lemma nat_str_inj (n m : nat) : nat_str n = nat_str m -> n = m.
Proof.
  unfold nat_str. intros H. apply DecimalNat.Unsigned.to_uint_inj.
  pose proof (NilEmpty.usu (Nat.to_uint n)) as Hn.
  rewrite H, NilEmpty.usu in Hn. congruence.
Qed.

(** Two texts without ':' that are each followed by a ':' are equal when
    the whole strings are. *)
Lemma colon_cut (a b x y : string) :
  has_char ":" a = false -> has_char ":" b = false ->
  a ++ String ":" x = b ++ String ":" y -> a = b.
Proof.
  revert b. induction a as [|c a IH]; intros [|c' b] Ha Hb H; simpl in *.
  - reflexivity.
  - injection H as <- _. simpl in Hb. discriminate.
  - injection H as -> _. simpl in Ha. discriminate.
  - injection H as <- H. apply orb_false_elim in Ha, Hb.
    f_equal. apply IH; tauto.
Qed.

Lemma tool_prefix_inj (i j : nat) (r : string) :
  String.prefix (tool_prefix i) (tool_prefix j ++ r) = true -> i = j.
Proof.
  intros H. apply prefix_inv in H. destruct H as [r' H].
  unfold tool_prefix in H. rewrite !append_assoc in H.
  apply append_inj_l in H.
  apply colon_cut in H; try apply nat_str_no_colon.
  apply nat_str_inj in H. lia.
Qed.

Lemma other_tool_not_prefixed (i : nat) (msg : string) :
  other_tool_msg i msg -> String.prefix (tool_prefix i) msg = false.
Proof.
  intros (j & r & Hne & ->).
  destruct (String.prefix _ _) eqn:E; [|reflexivity].
  apply tool_prefix_inj in E. congruence.
Qed.

Lemma not_tool_not_prefixed (i : nat) (msg : string) :
  tool_related msg = false -> String.prefix (tool_prefix i) msg = false.
Proof.
  intros H. destruct (String.prefix _ _) eqn:E; [|reflexivity].
  apply prefix_inv in E. destruct E as [r ->].
  rewrite tool_related_prefix in H. discriminate.
Qed.

Lemma filter_none {A : Type} (P : A -> bool) (l : list A) :
  Forall (fun x => P x = false) l -> filter P l = [].
Proof.
  induction 1 as [|x l Hx _ IH]; simpl; [|rewrite Hx]; auto.
Qed.

Lemma for_enumerate_app {A : Type} (l1 l2 : list A)
    (body : nat -> A -> M unit) (k : nat) (s : validator) :
  for_enumerate k (l1 ++ l2) body s
  = bind (for_enumerate k l1 body)
      (fun _ => for_enumerate (k + List.length l1) l2 body) s.
Proof.
  revert k s. induction l1 as [|x l1 IH]; intros k s; simpl.
  - rewrite Nat.add_0_r. reflexivity.
  - rewrite bind_assoc. apply bind_ext. intros _ s'.
    rewrite IH, Nat.add_succ_r. reflexivity.
Qed.

(* ================================================================== *)
(** ** What is in the report *)

Lemma model_related_inv (msg : string) :
  model_related msg = true ->
  exists r,
    msg = "Missing required field: 'model." ++ r
    \/ msg = "Invalid connection kind: " ++ r
    \/ msg = "'remote' connection requires " ++ r
    \/ msg = "'key' connection requires " ++ r
    \/ msg = "'reference' connection requires " ++ r
    \/ msg = "'anonymous' connection requires " ++ r.
Proof.
  unfold model_related. rewrite !orb_true_iff.
  intros [[[[[H|H]|H]|H]|H]|H]; apply prefix_inv in H; destruct H as [r H];
    exists r; tauto.
Qed.

Lemma tool_related_inv (msg : string) :
  tool_related msg = true -> exists r, msg = "Tool #" ++ r.
Proof. apply prefix_inv. Qed.



Lemma model_not_tool_related (msg : string) :
  model_related msg = true -> tool_related msg = false.
Proof.
  intros H. destruct (model_related_inv _ H) as (r & [E|[E|[E|[E|[E|E]]]]]);
    subst msg; reflexivity.
Qed.

Lemma tool_not_model_related (msg : string) :
  tool_related msg = true -> model_related msg = false.
Proof. intros H. destruct (tool_related_inv _ H) as [r ->]. reflexivity. Qed.

Lemma Forall_False_nil {A : Type} (l : list A) :
  Forall (fun _ => False) l -> l = [].
Proof. destruct l; [reflexivity | intros H; inversion H; contradiction]. Qed.

Section Report.

Variable py_repr : value -> string.

Lemma after_model_emits (agent_data : value) :
  emits (fun msg => tool_related msg = true) (fun _ => False)
    (after_model py_repr agent_data).
Proof.
  unfold after_model.
  apply emits_bind; [apply validate_tools_emits | intros _].
  apply emits_bind; [apply check_powerfx_emits | intros _].
  repeat emits_step.
Qed.

(** The errors of the report: those of the two field rules, then model
    and tool messages. *)
Lemma report_errors (d : list (string * value)) :
  exists es,
    errors (report py_repr d)
    = (required_errors d ++ kind_errors py_repr d ++ es)%list
    /\ Forall (fun msg => model_related msg = true
                          \/ tool_related msg = true) es.
Proof.
  unfold report. rewrite validate_dict.
  destruct (remaining_rules_emits py_repr (VDict d)
              (add_errors (required_errors d ++ kind_errors py_repr d) init))
    as (es & ws & He & _ & Fe & _).
  exists es. rewrite He. simpl. rewrite <- app_assoc. auto.
Qed.

Lemma report_required (d : list (string * value)) (msg : string) :
  In msg (required_errors d) -> In msg (errors (report py_repr d)).
Proof.
  intros H. destruct (report_errors d) as (es & -> & _).
  apply in_or_app. auto.
Qed.


Lemma required_errors_inv (d : list (string * value)) (msg : string) :
  In msg (required_errors d) ->
  msg = missing_field_msg "kind" \/ msg = missing_field_msg "name".
Proof.
  unfold required_errors. intros H. apply in_app_or in H.
  destruct H as [H|H];
    [destruct (dict_has d "kind") | destruct (dict_has d "name")];
    simpl in H; try contradiction; destruct H as [<-|[]]; auto.
Qed.

Lemma kind_errors_inv (d : list (string * value)) (msg : string) :
  In msg (kind_errors py_repr d) ->
  exists kind, msg = invalid_kind_msg py_repr kind.
Proof.
  unfold kind_errors. intros H.
  destruct (dict_get d "kind") as [kind|]; [|contradiction].
  destruct (truthy kind && negb (in_list kind VALID_KINDS));
    [|contradiction].
  destruct H as [<-|[]]. eauto.
Qed.

Lemma remaining_rules_eq (agent_data : value) (s : validator) :
  remaining_rules py_repr agent_data s
  = bind (_validate_model py_repr agent_data)
      (fun _ => after_model py_repr agent_data) s.
Proof. reflexivity. Qed.

(** A falsy model section: the rule appends the warning and returns. *)
Lemma validate_model_falsy (d : list (string * value)) (s : validator) :
  truthy (match dict_get d "model" with Some v => v | None => VNone end)
  = false ->
  _validate_model py_repr (VDict d) s
  = Returned tt
      (mkValidator (errors s) (warnings s ++ [no_model_msg])%list (stdout s)).
Proof.
  intros H. unfold _validate_model, bind, lift, py_get, py_get_default.
  rewrite H. reflexivity.
Qed.

Lemma report_falsy_model (d : list (string * value)) :
  truthy (match dict_get d "model" with Some v => v | None => VNone end)
  = false ->
  warnings (report py_repr d) = [no_model_msg]
  /\ forall msg, In msg (errors (report py_repr d)) ->
                 model_related msg = false.
Proof.
  intros H. unfold report. rewrite validate_dict, remaining_rules_eq.
  erewrite bind_returned by (apply validate_model_falsy, H).
  match goal with |- context [after_model _ _ ?s] =>
    destruct (after_model_emits (VDict d) s) as (es & ws & He & Hw & Fe & Fw)
  end.
  rewrite He, Hw. simpl. rewrite (Forall_False_nil _ Fw). split; [reflexivity|].
  intros msg Hin. rewrite <- app_assoc in Hin.
  apply in_app_or in Hin. destruct Hin as [Hin|Hin];
    [|apply in_app_or in Hin; destruct Hin as [Hin|Hin]].
  - apply required_errors_inv in Hin. destruct Hin as [->| ->]; reflexivity.
  - apply kind_errors_inv in Hin. destruct Hin as (kind & ->). reflexivity.
  - apply tool_not_model_related.
    rewrite Forall_forall in Fe. apply Fe, Hin.
Qed.

Lemma connection_rest_emits (model : value) :
  emits anything anything
    (connection <- lift (py_get model "connection") ;;
     when (truthy connection)
       (conn_kind <- lift (py_get connection "kind") ;;
        (if negb (truthy conn_kind)
         then append_error (missing_field_msg "model.connection.kind")
         else when (negb (in_list conn_kind VALID_CONNECTION_KINDS))
                (append_error
                   (invalid_connection_kind_msg py_repr conn_kind))) ;;
        connection_required_fields conn_kind connection)).
Proof.
  unfold connection_required_fields. repeat emits_step; exact I.
Qed.

(** A truthy model mapping without an id: the rule reports it. *)
Lemma validate_model_reports_id (d m : list (string * value)) :
  dict_get d "model" = Some (VDict m) ->
  m <> [] ->
  dict_has m "id" = false ->
  reports (missing_field_msg "model.id") (_validate_model py_repr (VDict d)).
Proof.
  intros Hm Hne Hid. unfold _validate_model.
  eapply reports_bind_lift; [reflexivity|]. cbv beta. rewrite Hm.
  destruct m as [|kv m]; [congruence|]. cbn [truthy negb].
  eapply reports_bind_lift; [reflexivity|]. cbv beta. rewrite Hid.
  cbn [negb when].
  eapply reports_bind_l; [apply reports_append_error | intros _].
  apply connection_rest_emits.
Qed.

Lemma report_model_id (d m : list (string * value)) :
  dict_get d "model" = Some (VDict m) ->
  m <> [] ->
  dict_has m "id" = false ->
  In (missing_field_msg "model.id") (errors (report py_repr d)).
Proof.
  intros Hm Hne Hid. unfold report.
  rewrite validate_dict, remaining_rules_eq.
  eapply reports_bind_l;
    [apply (validate_model_reports_id d m); assumption | intros _].
  apply after_model_emits.
Qed.


Lemma truthy_binding (m : list (string * value)) (k : string) (v : value) :
  dict_get m k = Some v -> truthy (VDict m) = true.
Proof. destruct m; [discriminate | reflexivity]. Qed.

(** A key connection: the rule returns, having appended the error about
    the id if there is none, and the error about the credential if
    neither field is there. *)
Lemma validate_model_key (d m c : list (string * value)) (s : validator) :
  dict_get d "model" = Some (VDict m) ->
  dict_get m "connection" = Some (VDict c) ->
  dict_get c "kind" = Some (VStr "key") ->
  _validate_model py_repr (VDict d) s
  = Returned tt
      (add_errors
         ((if dict_has m "id" then [] else [missing_field_msg "model.id"])
          ++ (if dict_has c "apiKey" || dict_has c "key" then []
              else [key_credential_msg]))%list s).
Proof.
  intros Hm Hc Hk.
  unfold _validate_model, connection_required_fields, bind, lift, py_get,
    py_get_default, py_contains, when, ret.
  rewrite Hm, (truthy_binding _ _ _ Hc). cbv beta iota. cbn [negb].
  rewrite Hc, (truthy_binding _ _ _ Hk). cbv beta iota.
  rewrite Hk. cbv beta iota.
  destruct (dict_has m "id"), (dict_has c "apiKey"), (dict_has c "key");
    simpl; unfold add_errors, append_error; simpl;
    rewrite <- ?app_assoc, ?app_nil_r, ?validator_eta; reflexivity.
Qed.

Lemma dict_get_set_eq (d : list (string * value)) (k : string) (v : value) :
  dict_get (dict_set d k v) k = Some v.
Proof.
  induction d as [|[k' v'] d IH]; simpl.
  - rewrite String.eqb_refl. reflexivity.
  - destruct (k' =? k) eqn:E; simpl; rewrite E; [reflexivity | exact IH].
Qed.

Lemma dict_get_set_neq (d : list (string * value)) (k k' : string)
    (v : value) :
  k <> k' -> dict_get (dict_set d k v) k' = dict_get d k'.
Proof.
  intros Hne. induction d as [|[k0 v0] d IH]; simpl.
  - apply String.eqb_neq in Hne. rewrite Hne. reflexivity.
  - destruct (k0 =? k) eqn:E; simpl.
    + apply String.eqb_eq in E. subst k0.
      apply String.eqb_neq in Hne. rewrite Hne. reflexivity.
    + rewrite IH. reflexivity.
Qed.

Lemma count_singleton (msg : string) :
  count_occ string_dec [msg] msg = 1.
Proof. simpl. destruct (string_dec msg msg); congruence. Qed.

(** How often the credential error is in the report of a document with
    a key connection. *)
Lemma report_key_count (d m c : list (string * value)) :
  dict_get d "model" = Some (VDict m) ->
  dict_get m "connection" = Some (VDict c) ->
  dict_get c "kind" = Some (VStr "key") ->
  count_occ string_dec (errors (report py_repr d)) key_credential_msg
  = if dict_has c "apiKey" || dict_has c "key" then 0 else 1.
Proof.
  intros Hm Hc Hk. unfold report.
  rewrite validate_dict, remaining_rules_eq.
  erewrite bind_returned by (apply (validate_model_key d m c); assumption).
  match goal with |- context [after_model _ _ ?s] =>
    destruct (after_model_emits (VDict d) s) as (es & ws & He & _ & Fe & _)
  end.
  rewrite He. simpl. rewrite !count_occ_app.
  assert (H1 : count_occ string_dec (required_errors d) key_credential_msg
               = 0).
  { apply count_occ_not_In. intros H.
    apply required_errors_inv in H. destruct H; discriminate. }
  assert (H2 : count_occ string_dec (kind_errors py_repr d)
                 key_credential_msg = 0).
  { apply count_occ_not_In. intros H.
    apply kind_errors_inv in H. destruct H as [kind H]. discriminate. }
  assert (H3 : count_occ string_dec es key_credential_msg = 0).
  { apply count_occ_not_In. intros H.
    rewrite Forall_forall in Fe. apply Fe in H. discriminate. }
  assert (H4 : count_occ string_dec
                 (if dict_has m "id" then []
                  else [missing_field_msg "model.id"])
                 key_credential_msg = 0).
  { apply count_occ_not_In. intros H.
    destruct (dict_has m "id"); simpl in H; [contradiction|].
    destruct H as [H|[]]. discriminate. }
  rewrite H1, H2, H3, H4.
  destruct (dict_has c "apiKey" || dict_has c "key");
    [reflexivity | rewrite count_singleton; reflexivity].
Qed.

(** A tool mapping whose kind is absent or falsy: the body of the loop
    appends the one error and ends there. *)
Lemma validate_tool_falsy (i : nat) (t : list (string * value))
    (s : validator) :
  truthy (match dict_get t "kind" with Some v => v | None => VNone end)
  = false ->
  validate_tool py_repr i (VDict t) s
  = Returned tt (add_errors [tool_missing_kind_msg i] s).
Proof.
  intros H. unfold validate_tool, bind, lift, py_get, py_get_default.
  rewrite H. reflexivity.
Qed.

Lemma validate_tool_emits_at (i : nat) (tool : value) :
  emits (fun msg => exists r, msg = tool_prefix i ++ r) (fun _ => False)
    (validate_tool py_repr i tool).
Proof.
  unfold validate_tool, tool_specific, tool_requires.
  repeat emits_step; eexists; reflexivity.
Qed.

Lemma for_enumerate_emits_range (entries : list value) (k : nat) :
  emits (fun msg => exists j r, k <= j < k + List.length entries
                                /\ msg = tool_prefix j ++ r)
    (fun _ => False)
    (for_enumerate k entries (validate_tool py_repr)).
Proof.
  revert k. induction entries as [|tool entries IH]; intros k; simpl.
  - apply emits_ret.
  - apply emits_bind; [|intros _].
    + eapply emits_weaken; [| |apply validate_tool_emits_at]; [|auto].
      intros msg [r ->]. exists k, r. split; [lia | reflexivity].
    + eapply emits_weaken; [| |apply (IH (S k))]; [|auto].
      intros msg (j & r & Hj & ->). exists j, r. split; [lia | reflexivity].
Qed.

(** The loop over the tools, at an entry without a truthy kind that only
    mappings precede: the error of the entry stands between messages of
    other entries. *)
Lemma tools_loop_entry (pre post : list value) (t : list (string * value))
    (s : validator) :
  forallb is_dict pre = true ->
  truthy (match dict_get t "kind" with Some v => v | None => VNone end)
  = false ->
  exists es1 es2,
    errors (state_of (for_enumerate 0 (pre ++ VDict t :: post)
                        (validate_tool py_repr) s))
    = (errors s ++ es1
       ++ tool_missing_kind_msg (List.length pre) :: es2)%list
    /\ Forall (other_tool_msg (List.length pre)) es1
    /\ Forall (other_tool_msg (List.length pre)) es2.
Proof.
  intros Hpre Hf. rewrite for_enumerate_app.
  destruct (for_enumerate_returns py_repr pre Hpre 0 s) as ([] & s1 & E1).
  rewrite (bind_returned _ _ _ _ _ E1).
  destruct (for_enumerate_emits_range pre 0 s) as (es1 & ws1 & He1 & _ & F1 & _).
  rewrite E1 in He1. simpl in He1.
  cbn [for_enumerate Nat.add].
  rewrite (bind_returned _ _ _ _ _ (validate_tool_falsy _ _ _ Hf)).
  destruct (for_enumerate_emits_range post (S (List.length pre))
              (add_errors [tool_missing_kind_msg (List.length pre)] s1))
    as (es2 & ws2 & He2 & _ & F2 & _).
  exists es1, es2. rewrite He2. simpl. rewrite He1, <- !app_assoc.
  split; [reflexivity|].
  split; (eapply Forall_impl; [|eassumption]);
    intros msg (j & r & Hj & ->); exists j, r; split; (lia || reflexivity).
Qed.

Lemma after_model_errors (agent_data : value) (s : validator) :
  errors (state_of (after_model py_repr agent_data s))
  = errors (state_of (_validate_tools py_repr agent_data s)).
Proof.
  unfold after_model.
  destruct (_validate_tools py_repr agent_data s) as [[] s'|e s'] eqn:E;
    [rewrite (bind_returned _ _ _ _ _ E)
    |rewrite (bind_raised _ _ _ _ _ E); reflexivity].
  destruct (check_powerfx_silent agent_data s') as (a & out & E').
  rewrite (bind_returned _ _ _ _ _ E'). reflexivity.
Qed.

(** In the report of a document whose model section is well shaped and
    whose tools are a sequence, an entry without a truthy kind that only
    mappings precede has exactly one message: the missing-kind error. *)
Lemma report_tool_entry (d t : list (string * value))
    (pre post : list value) :
  model_well_shaped d = true ->
  dict_get d "tools" = Some (VList (pre ++ VDict t :: post)) ->
  forallb is_dict pre = true ->
  truthy (match dict_get t "kind" with Some v => v | None => VNone end)
  = false ->
  filter (String.prefix (tool_prefix (List.length pre)))
    (errors (report py_repr d))
  = [tool_missing_kind_msg (List.length pre)].
Proof.
  intros Hm Htools Hpre Hf. unfold report.
  rewrite validate_dict, remaining_rules_eq.
  match goal with |- context [bind _ _ ?s0] => set (s2 := s0) end.
  destruct (validate_model_returns py_repr d Hm s2) as ([] & s3 & E3).
  rewrite (bind_returned _ _ _ _ _ E3), after_model_errors.
  destruct (validate_model_emits py_repr (VDict d) s2)
    as (esm & wsm & Hem & _ & Fm & _).
  rewrite E3 in Hem. simpl in Hem.
  assert (Et : _validate_tools py_repr (VDict d) s3
               = for_enumerate 0 (pre ++ VDict t :: post)
                   (validate_tool py_repr) s3).
  { unfold _validate_tools, bind, lift, py_get_default. rewrite Htools.
    reflexivity. }
  rewrite Et.
  destruct (tools_loop_entry pre post t s3 Hpre Hf)
    as (es1 & es2 & He & F1 & F2).
  rewrite He, Hem. simpl.
  rewrite !filter_app. simpl. rewrite prefix_app.
  rewrite (filter_none _ es1), (filter_none _ es2), (filter_none _ esm).
  - rewrite !filter_none; [reflexivity| |].
    + rewrite Forall_forall. intros msg H. apply kind_errors_inv in H.
      destruct H as [kind ->]. apply not_tool_not_prefixed. reflexivity.
    + rewrite Forall_forall. intros msg H. apply required_errors_inv in H.
      destruct H as [-> | ->]; apply not_tool_not_prefixed; reflexivity.
  - eapply Forall_impl; [|exact Fm]. intros msg H.
    apply not_tool_not_prefixed, model_not_tool_related, H.
  - eapply Forall_impl; [|exact F2]. apply other_tool_not_prefixed.
  - eapply Forall_impl; [|exact F1]. apply other_tool_not_prefixed.
Qed.

End Report.

(* ================================================================== *)
(** ** Properties of [validate] *)

Section Claims.

Variable py_repr : value -> string.

(** C1.  Whenever [validate] returns, the boolean it returns is true
    exactly when the errors it leaves are empty; and any other returning
    run that leaves the same errors returns the same boolean, whatever
    its warnings and printed expressions are. *)
Theorem is_valid_iff_no_errors (src : source) (s : validator)
    (b : bool) (st : validator) :
  validate py_repr src s = Returned b st ->
  (b = true <-> errors st = [])
  /\ (forall src' s' b' st',
        validate py_repr src' s' = Returned b' st' ->
        errors st' = errors st -> b' = b).
Proof.
  intros H. pose proof (validate_result _ _ _ _ _ H) as Hb. split.
  - rewrite Hb. apply length_eqb_0.
  - intros src' s' b' st' H' E.
    rewrite (validate_result _ _ _ _ _ H'), Hb, E. reflexivity.
Qed.

(** C2.  On a root that is not a mapping [validate] does not report a
    fatal error and return false: it raises.  An empty document (root
    [None]) raises [TypeError] in the first rule with nothing reported; a
    sequence or a string root gets the two missing-field errors and then
    raises [AttributeError] in the kind rule. *)
Theorem non_mapping_root_raises :
  validate py_repr (Loaded VNone) init = Raised TypeError init
  /\ validate py_repr (Loaded (VList [VStr "a"])) init
     = Raised AttributeError
         (mkValidator [missing_field_msg "kind"; missing_field_msg "name"]
            [] [])
  /\ validate py_repr (Loaded (VStr "Agent")) init
     = Raised AttributeError
         (mkValidator [missing_field_msg "kind"; missing_field_msg "name"]
            [] [])
  /\ validate py_repr (Loaded (VInt 3)) init = Raised TypeError init.
Proof. repeat split. Qed.

(** On a root mapping in which 'kind' or 'name' is absent, and whose
    model, connection and tools sections have the shapes the rules rely
    on, [validate] returns false and the errors hold the message
    "Missing required field: '<field>'", which mentions the name of the
    field. *)
Lemma missing_required_field (d : list (string * value))
    (field : string) :
  field = "kind" \/ field = "name" ->
  dict_has d field = false ->
  well_shaped d = true ->
  (exists st,
      validate py_repr (Loaded (VDict d)) init = Returned false st
      /\ In (missing_field_msg field) (errors st))
  /\ str_contains field (missing_field_msg field) = true.
Proof.
  intros Hf Habs Hws. split; [|apply (str_contains_app field _ "'")].
  destruct (validate_returns py_repr d Hws init) as (b & st & E).
  assert (Hin : In (missing_field_msg field) (errors st)).
  { rewrite <- (result_of_returned _ _ _ _ E).
    apply report_required. unfold required_errors.
    apply in_or_app. destruct Hf as [-> | ->]; rewrite Habs; simpl; auto. }
  exists st. split; [|exact Hin].
  rewrite E, (validate_result _ _ _ _ _ E).
  destruct (errors st); [contradiction | reflexivity].
Qed.

(** C3.  What becomes of a missing required field when a later rule
    raises.  On the root mapping [{name: x, tools: 5}], which has no
    'kind', the error "Missing required field: 'kind'" is appended, but
    [validate] does not return false: the tools rule raises [TypeError]
    on the number, nothing catches it, and [validate] returns nothing. *)
Theorem missing_field_then_tools_raise :
  dict_has ill_typed_tools_doc "kind" = false
  /\ validate py_repr (Loaded (VDict ill_typed_tools_doc)) init
     = Raised TypeError
         (mkValidator [missing_field_msg "kind"] [no_model_msg] [])
  /\ In (missing_field_msg "kind")
       (errors (report py_repr ill_typed_tools_doc))
  /\ ~ (exists b st,
          validate py_repr (Loaded (VDict ill_typed_tools_doc)) init
          = Returned b st).
Proof.
  split; [reflexivity|]. split; [reflexivity|].
  split; [left; reflexivity|].
  intros (b & st & H). discriminate H.
Qed.


(** C5 (amended).  On a root mapping whose 'model' is absent, or present
    with a falsy value (null, an empty mapping), the only warning is
    "No 'model' section defined" and no model error is reported; when
    'model' is a non-empty mapping without 'id', the error
    "Missing required field: 'model.id'" is reported. *)
Theorem model_section (d : list (string * value)) :
  (dict_get d "model" = None ->
   warnings (report py_repr d) = [no_model_msg]
   /\ forall msg, In msg (errors (report py_repr d)) ->
                  model_related msg = false)
  /\ (forall model, dict_get d "model" = Some model ->
      truthy model = false ->
      warnings (report py_repr d) = [no_model_msg]
      /\ forall msg, In msg (errors (report py_repr d)) ->
                     model_related msg = false)
  /\ (forall m, dict_get d "model" = Some (VDict m) ->
      m <> [] ->
      dict_has m "id" = false ->
      In (missing_field_msg "model.id") (errors (report py_repr d))).
Proof.
  split; [|split].
  - intros H. apply report_falsy_model. rewrite H. reflexivity.
  - intros model H Hf. apply report_falsy_model. rewrite H. exact Hf.
  - apply report_model_id.
Qed.

(** C6.  On a document whose model.connection.kind is "key": when the
    connection has neither 'apiKey' nor 'key', the error about the missing
    credential is in the report exactly once, and it is not there once
    either field was added to the connection; it is not there for any
    connection that has one of the two fields. *)
Theorem key_connection_credential (d m c : list (string * value)) :
  dict_get d "model" = Some (VDict m) ->
  dict_get m "connection" = Some (VDict c) ->
  dict_get c "kind" = Some (VStr "key") ->
  (dict_has c "apiKey" = false -> dict_has c "key" = false ->
   count_occ string_dec (errors (report py_repr d)) key_credential_msg = 1
   /\ forall field v, field = "apiKey" \/ field = "key" ->
        count_occ string_dec
          (errors (report py_repr (add_connection_field d m c field v)))
          key_credential_msg = 0)
  /\ (dict_has c "apiKey" = true \/ dict_has c "key" = true ->
      count_occ string_dec (errors (report py_repr d)) key_credential_msg
      = 0).
Proof.
  intros Hm Hc Hk. split.
  - intros Ha Hb. split.
    + rewrite (report_key_count py_repr d m c Hm Hc Hk), Ha, Hb.
      reflexivity.
    + intros field v Hf. unfold add_connection_field.
      erewrite report_key_count;
        [ | apply dict_get_set_eq | apply dict_get_set_eq
          | rewrite dict_get_set_neq; [exact Hk|] ].
      * unfold dict_has.
        destruct Hf as [-> | ->]; rewrite dict_get_set_eq;
          rewrite ?orb_true_r; reflexivity.
      * destruct Hf as [-> | ->]; discriminate.
  - intros H. rewrite (report_key_count py_repr d m c Hm Hc Hk).
    destruct H as [-> | ->]; rewrite ?orb_true_r; reflexivity.
Qed.

(** C7.  In the loop over the tools, an entry that is a mapping without
    'kind' gets exactly one error, "Tool #<n>: Missing 'kind' field";
    none of the kind-specific checks runs for it, and the loop goes on
    with the next entry.  In the report of every document in which the
    loop gets to the entry, that error is the only message about it. *)
Theorem tool_without_kind (i : nat) (t : list (string * value))
    (rest : list value) (s : validator) :
  dict_has t "kind" = false ->
  validate_tool py_repr i (VDict t) s
  = Returned tt (add_errors [tool_missing_kind_msg i] s)
  /\ for_enumerate i (VDict t :: rest) (validate_tool py_repr) s
     = for_enumerate (S i) rest (validate_tool py_repr)
         (add_errors [tool_missing_kind_msg i] s)
  /\ (forall d pre post,
        model_well_shaped d = true ->
        dict_get d "tools" = Some (VList (pre ++ VDict t :: post)) ->
        forallb is_dict pre = true ->
        filter (String.prefix (tool_prefix (List.length pre)))
          (errors (report py_repr d))
        = [tool_missing_kind_msg (List.length pre)]).
Proof.
  intros H.
  assert (Hf : truthy (match dict_get t "kind" with
                       | Some v => v
                       | None => VNone
                       end) = false).
  { unfold dict_has in H.
    destruct (dict_get t "kind"); [discriminate | reflexivity]. }
  pose proof (validate_tool_falsy py_repr i t s Hf) as E.
  split; [exact E|]. split.
  - cbn [for_enumerate]. rewrite (bind_returned _ _ _ _ _ E). reflexivity.
  - intros d pre post Hm Ht Hpre.
    apply (report_tool_entry py_repr d t pre post); assumption.
Qed.

(** C8 (amended).  On [{"a": {"b": "=Env.FOO,bar)"}}] the scan records the
    single expression at path "a.b" and prints the variable name "FOO";
    on [{"a": "=Env.FOO"}] it prints "FOO" as well.  In general the name
    extracted from "=Env." followed by [rest] is [rest] cut at the next
    "=Env.", if there is one, and then at its first ')' or ','. *)
Theorem env_var_name_extraction :
  find_expressions nested_env_doc "" = [("a.b", "=Env.FOO,bar)")]
  /\ env_var_name "=Env.FOO,bar)" = inr "FOO"
  /\ stdout (state_of (_check_powerfx_expressions nested_env_doc init))
     = [expressions_header; "   a.b: =Env.FOO,bar)";
        "      → Requires env var: FOO"]
  /\ find_expressions flat_env_doc "" = [("a", "=Env.FOO")]
  /\ env_var_name "=Env.FOO" = inr "FOO"
  /\ (forall rest,
        env_var_name ("=Env." ++ rest)
        = inr (up_to is_delimiter (before "=Env." rest))).
Proof.
  repeat split. apply env_var_name_eq.
Qed.

(** C9.  The minimal document [{kind: Agent, name: "x"}] validates: no
    error, the single warning that there is no model section, nothing
    printed, no expression found, and [validate] returns true. *)
Theorem minimal_document_is_valid :
  validate py_repr (Loaded minimal_doc) init
  = Returned true (mkValidator [] [no_model_msg] [])
  /\ find_expressions minimal_doc "" = [].
Proof. split; reflexivity. Qed.

(** C10.  In the loop over the tools, an entry whose 'kind' is present
    with a falsy value (such as the empty string, null, false or 0) gets
    the one error "Tool #<n>: Missing 'kind' field", which is not the
    error about an invalid kind; no further check runs for it, and the
    loop goes on with the next entry.  In the report of every document in
    which the loop gets to the entry, that error is the only message
    about it. *)
Theorem tool_with_falsy_kind (i : nat) (t : list (string * value))
    (kind : value) (rest : list value) (s : validator) :
  dict_get t "kind" = Some kind ->
  truthy kind = false ->
  validate_tool py_repr i (VDict t) s
  = Returned tt (add_errors [tool_missing_kind_msg i] s)
  /\ for_enumerate i (VDict t :: rest) (validate_tool py_repr) s
     = for_enumerate (S i) rest (validate_tool py_repr)
         (add_errors [tool_missing_kind_msg i] s)
  /\ tool_missing_kind_msg i <> tool_invalid_kind_msg py_repr i kind
  /\ (forall d pre post,
        model_well_shaped d = true ->
        dict_get d "tools" = Some (VList (pre ++ VDict t :: post)) ->
        forallb is_dict pre = true ->
        filter (String.prefix (tool_prefix (List.length pre)))
          (errors (report py_repr d))
        = [tool_missing_kind_msg (List.length pre)])
  /\ truthy (VStr "") = false /\ truthy VNone = false
  /\ truthy (VBool false) = false /\ truthy (VInt 0) = false.
Proof.
  intros Hk Hf.
  assert (Hf' : truthy (match dict_get t "kind" with
                        | Some v => v
                        | None => VNone
                        end) = false) by (rewrite Hk; exact Hf).
  pose proof (validate_tool_falsy py_repr i t s Hf') as E.
  split; [exact E|].
  split; [cbn [for_enumerate]; rewrite (bind_returned _ _ _ _ _ E);
          reflexivity|].
  split; [|split; [|repeat split]].
  - unfold tool_missing_kind_msg, tool_invalid_kind_msg. intros H.
    apply append_inj_l in H. discriminate.
  - intros d pre post Hm Ht Hpre.
    apply (report_tool_entry py_repr d t pre post); assumption.
Qed.

(** Whether or not [validate] returns, a missing required field is in the
    report it leaves. *)
Lemma missing_required_field_reported (d : list (string * value))
    (field : string) :
  field = "kind" \/ field = "name" ->
  dict_has d field = false ->
  In (missing_field_msg field) (errors (report py_repr d)).
Proof.
  intros Hf Habs. apply report_required. unfold required_errors.
  apply in_or_app. destruct Hf as [-> | ->]; rewrite Habs; simpl; auto.
Qed.

(** When "=Env." does not occur again, the name is the remainder cut at
    its first ')' or ','. *)
Lemma env_var_name_single (rest : string) :
  str_contains "=Env." rest = false ->
  env_var_name ("=Env." ++ rest) = inr (up_to is_delimiter rest).
Proof.
  intros H. rewrite env_var_name_eq, before_absent; [reflexivity| |exact H].
  discriminate.
Qed.

End Claims.

(* ================================================================== *)
(** ** The properties at concrete documents *)

Lemma is_valid_iff_no_errors_witness :
  validate no_repr (Loaded minimal_doc) init
  = Returned true (mkValidator [] [no_model_msg] [])
  /\ (true = true <-> errors (mkValidator [] [no_model_msg] []) = []).
Proof.
  split; [reflexivity|].
  exact (proj1 (is_valid_iff_no_errors no_repr (Loaded minimal_doc) init true
                  (mkValidator [] [no_model_msg] []) eq_refl)).
Defined.

Lemma missing_required_field_witness :
  dict_has nameless_doc "name" = false
  /\ well_shaped nameless_doc = true
  /\ exists st,
       validate no_repr (Loaded (VDict nameless_doc)) init = Returned false st
       /\ In "Missing required field: 'name'" (errors st).
Proof.
  split; [reflexivity|]. split; [reflexivity|].
  exact (proj1 (missing_required_field no_repr nameless_doc "name"
                  (or_intror eq_refl) eq_refl eq_refl)).
Defined.



Lemma model_section_witness :
  (warnings (report no_repr minimal_doc_fields) = [no_model_msg]
   /\ forall msg, In msg (errors (report no_repr minimal_doc_fields)) ->
                  model_related msg = false)
  /\ (warnings (report no_repr empty_model_doc) = [no_model_msg]
      /\ forall msg, In msg (errors (report no_repr empty_model_doc)) ->
                     model_related msg = false)
  /\ In "Missing required field: 'model.id'"
       (errors (report no_repr model_without_id_doc)).
Proof.
  split; [|split].
  - exact (proj1 (model_section no_repr minimal_doc_fields) eq_refl).
  - exact (proj1 (proj2 (model_section no_repr empty_model_doc))
             (VDict []) eq_refl eq_refl).
  - refine (proj2 (proj2 (model_section no_repr model_without_id_doc))
              [("name", VStr "gpt")] eq_refl _ eq_refl).
    discriminate.
Defined.

(** [model: {}] is present and has no id, yet no error is reported: the
    rule takes it for a missing section. *)
Lemma model_section_counterexample :
  dict_get empty_model_doc "model" = Some (VDict [])
  /\ dict_has [] "id" = false
  /\ errors (report no_repr empty_model_doc) = []
  /\ warnings (report no_repr empty_model_doc) = [no_model_msg].
Proof. repeat split. Qed.

Lemma key_connection_credential_witness :
  count_occ string_dec (errors (report no_repr key_doc)) key_credential_msg
  = 1
  /\ count_occ string_dec
       (errors (report no_repr
                  (add_connection_field key_doc key_model key_conn
                     "apiKey" (VStr "secret"))))
       key_credential_msg = 0.
Proof.
  pose proof (proj1 (key_connection_credential no_repr key_doc key_model
                       key_conn eq_refl eq_refl eq_refl) eq_refl eq_refl)
    as [H1 H2].
  split; [exact H1|].
  exact (H2 "apiKey" (VStr "secret") (or_introl eq_refl)).
Defined.

Lemma tool_without_kind_witness :
  dict_has [("name", VStr "search")] "kind" = false
  /\ validate_tool no_repr 0 (VDict [("name", VStr "search")]) init
     = Returned tt (add_errors ["Tool #1: Missing 'kind' field"] init)
  /\ filter (String.prefix "Tool #2: ")
       (errors (report no_repr kindless_tool_doc))
     = ["Tool #2: Missing 'kind' field"].
Proof.
  split; [reflexivity|].
  pose proof (tool_without_kind no_repr 0 [("name", VStr "search")] [] init
                eq_refl) as (H1 & _ & H3).
  split; [exact H1|].
  exact (H3 kindless_tool_doc [VDict [("kind", VStr "web_search")]]
           [VDict [("kind", VStr "custom")]] eq_refl eq_refl eq_refl).
Defined.

(** A second "=Env." cuts the name, where no ')' or ',' would. *)
Lemma env_var_name_extraction_counterexample :
  env_var_name ("=Env." ++ "A=Env.B") = inr "A"
  /\ up_to is_delimiter "A=Env.B" = "A=Env.B"
  /\ env_var_name ("=Env." ++ "A=Env.B")
     <> inr (up_to is_delimiter "A=Env.B").
Proof.
  split; [reflexivity|]. split; [reflexivity|]. discriminate.
Qed.

Lemma tool_with_falsy_kind_witness :
  dict_get [("kind", VStr ""); ("name", VStr "f")] "kind" = Some (VStr "")
  /\ truthy (VStr "") = false
  /\ validate_tool no_repr 2 (VDict [("kind", VStr ""); ("name", VStr "f")])
       init
     = Returned tt (add_errors ["Tool #3: Missing 'kind' field"] init).
Proof.
  split; [reflexivity|]. split; [reflexivity|].
  exact (proj1 (tool_with_falsy_kind no_repr 2
                  [("kind", VStr ""); ("name", VStr "f")] (VStr "") [] init
                  eq_refl eq_refl)).
Defined.

(* ================================================================== *)
(** ** The model rule on a connection *)

Lemma falsy_not_eq (v : value) (s : string) :
  truthy v = false -> s <> "" -> py_eq_str v s = false.
Proof.
  intros Hf Hs. destruct v; try reflexivity. simpl in *.
  apply negb_false_iff, String.eqb_eq in Hf. subst.
  apply String.eqb_neq. congruence.
Qed.

Lemma in_list_inv (v : value) (L : list string) :
  in_list v L = true -> exists k, v = VStr k /\ In k L.
Proof.
  unfold in_list. intros H. apply existsb_exists in H.
  destruct H as (k & Hin & Heq). destruct v; try discriminate.
  simpl in Heq. apply String.eqb_eq in Heq. subst. eauto.
Qed.

Lemma not_in_list_neq (v : value) (L : list string) (k : string) :
  in_list v L = false -> In k L -> py_eq_str v k = false.
Proof.
  unfold in_list. intros H Hin.
  destruct (py_eq_str v k) eqn:E; [|reflexivity].
  assert (existsb (py_eq_str v) L = true)
    by (apply existsb_exists; eauto).
  congruence.
Qed.

Lemma truthy_nonempty (c : list (string * value)) :
  c <> [] -> truthy (VDict c) = true.
Proof. destruct c; [congruence | reflexivity]. Qed.

Ltac normalise_state :=
  simpl; unfold add_errors, append_error, id_errors; simpl;
  rewrite <- ?app_assoc, ?app_nil_r, ?validator_eta; simpl;
  rewrite ?app_nil_r, ?validator_eta; try reflexivity.

Section Connection.

Variable py_repr : value -> string.

(** The model rule on a truthy model mapping [m] with a truthy connection
    mapping [c]: the check of the id, then the checks of the connection. *)
Lemma validate_model_connection (d m c : list (string * value))
    (s : validator) :
  dict_get d "model" = Some (VDict m) ->
  dict_get m "connection" = Some (VDict c) ->
  c <> [] ->
  _validate_model py_repr (VDict d) s
  = bind
      (if negb (truthy (get_or_none c "kind"))
       then append_error (missing_field_msg "model.connection.kind")
       else when (negb (in_list (get_or_none c "kind")
                          VALID_CONNECTION_KINDS))
              (append_error
                 (invalid_connection_kind_msg py_repr
                    (get_or_none c "kind"))))
      (fun _ => connection_required_fields (get_or_none c "kind") (VDict c))
      (add_errors (id_errors m) s).
Proof.
  intros Hm Hc Hne.
  unfold _validate_model.
  unfold bind at 1, lift at 1, py_get at 1, py_get_default.
  rewrite Hm, (truthy_binding _ _ _ Hc). cbn [negb].
  unfold bind at 1, lift at 1, py_contains.
  unfold bind at 1.
  assert (E : when (negb (dict_has m "id"))
                (append_error (missing_field_msg "model.id")) s
              = Returned tt (add_errors (id_errors m) s)).
  { unfold id_errors. destruct (dict_has m "id"); simpl;
      [rewrite add_errors_nil|]; reflexivity. }
  rewrite E.
  unfold bind at 1, lift at 1, py_get at 1, py_get_default.
  rewrite Hc, (truthy_nonempty c Hne). cbn [when].
  unfold bind at 1, lift at 1, py_get at 1, py_get_default.
  reflexivity.
Qed.

Lemma connection_required_fields_none (conn_kind connection : value)
    (s : validator) :
  py_eq_str conn_kind "remote" = false ->
  py_eq_str conn_kind "key" = false ->
  py_eq_str conn_kind "reference" = false ->
  py_eq_str conn_kind "anonymous" = false ->
  connection_required_fields conn_kind connection s = Returned tt s.
Proof.
  intros H1 H2 H3 H4. unfold connection_required_fields, bind, ret, when.
  rewrite H1, H2, H3, H4. reflexivity.
Qed.

(** X7.  A connection without a truthy kind gets the one error about the
    missing kind, and none of the checks of a required field applies. *)
Theorem connection_without_kind (d m c : list (string * value))
    (s : validator) :
  dict_get d "model" = Some (VDict m) ->
  dict_get m "connection" = Some (VDict c) ->
  c <> [] ->
  truthy (get_or_none c "kind") = false ->
  _validate_model py_repr (VDict d) s
  = Returned tt
      (add_errors
         (id_errors m ++ [missing_field_msg "model.connection.kind"])%list s).
Proof.
  intros Hm Hc Hne Hk.
  rewrite (validate_model_connection d m c s Hm Hc Hne), Hk. cbn [negb].
  erewrite bind_returned by apply append_error_eq.
  rewrite connection_required_fields_none, add_errors_app;
    try (apply falsy_not_eq; [exact Hk | discriminate]).
  reflexivity.
Qed.

(** X8.  A connection whose kind is truthy and not one of the four kinds gets
    the one error naming the kind, and none of the checks of a required
    field applies. *)
Theorem connection_with_invalid_kind (d m c : list (string * value))
    (s : validator) :
  dict_get d "model" = Some (VDict m) ->
  dict_get m "connection" = Some (VDict c) ->
  truthy (get_or_none c "kind") = true ->
  in_list (get_or_none c "kind") VALID_CONNECTION_KINDS = false ->
  _validate_model py_repr (VDict d) s
  = Returned tt
      (add_errors
         (id_errors m
          ++ [invalid_connection_kind_msg py_repr (get_or_none c "kind")])%list
         s).
Proof.
  intros Hm Hc Hk Hout.
  assert (Hne : c <> []).
  { intros ->. unfold get_or_none in Hk. simpl in Hk. discriminate. }
  rewrite (validate_model_connection d m c s Hm Hc Hne), Hk, Hout.
  cbn [negb when].
  erewrite bind_returned by apply append_error_eq.
  rewrite connection_required_fields_none, add_errors_app;
    try (eapply not_in_list_neq; [exact Hout | simpl; tauto]).
  reflexivity.
Qed.

(** X9.  A remote, reference or anonymous connection gets the error about the
    field it requires exactly when the field is not a key of the
    connection, and no other error. *)
Theorem connection_requires_field (d m c : list (string * value))
    (kind field : string) (s : validator) :
  dict_get d "model" = Some (VDict m) ->
  dict_get m "connection" = Some (VDict c) ->
  dict_get c "kind" = Some (VStr kind) ->
  In (kind, field) connection_requirements ->
  _validate_model py_repr (VDict d) s
  = Returned tt
      (add_errors
         (id_errors m
          ++ (if dict_has c field then []
              else [connection_requires_msg kind field]))%list s).
Proof.
  intros Hm Hc Hk Hin.
  assert (Hne : c <> []) by (intros ->; discriminate).
  rewrite (validate_model_connection d m c s Hm Hc Hne).
  unfold get_or_none. rewrite Hk.
  simpl in Hin.
  destruct Hin as [E|[E|[E|[]]]]; injection E as <- <-;
    unfold connection_required_fields, bind, lift, py_contains, when, ret;
    simpl; destruct (dict_has c _); normalise_state.
Qed.

(** X6.  A model whose connection is absent or falsy (null, an empty mapping)
    is checked for its id only. *)
Theorem model_without_connection (d m : list (string * value))
    (s : validator) :
  dict_get d "model" = Some (VDict m) ->
  m <> [] ->
  truthy (get_or_none m "connection") = false ->
  _validate_model py_repr (VDict d) s
  = Returned tt (add_errors (id_errors m) s).
Proof.
  intros Hm Hne Hc.
  unfold _validate_model, bind, lift, py_get, py_get_default, py_contains.
  rewrite Hm, (truthy_nonempty m Hne). cbn [negb].
  fold (get_or_none m "connection"). rewrite Hc.
  unfold id_errors. destruct (dict_has m "id"); normalise_state.
Qed.

End Connection.

(* ================================================================== *)
(** ** The tools rule, entry by entry *)

Ltac destruct_dict_has :=
  repeat match goal with
         | |- context [dict_has ?t ?f] => destruct (dict_has t f)
         end.

Section Tools.

Variable py_repr : value -> string.

Lemma validate_tool_valid_kind (i : nat) (t : list (string * value))
    (kind : string) (fields : list string) (s : validator) :
  dict_get t "kind" = Some (VStr kind) ->
  In (kind, fields) tool_requirements ->
  validate_tool py_repr i (VDict t) s
  = Returned tt
      (add_errors
         (map (tool_requires_msg i kind)
            (filter (fun field => negb (dict_has t field)) fields)) s).
Proof.
  intros Hk Hin. simpl in Hin.
  unfold validate_tool, tool_specific, tool_requires, bind, lift, py_get,
    py_get_default, py_contains, when, ret.
  rewrite Hk.
  destruct Hin as [E|[E|[E|[E|[E|[E|[E|[]]]]]]]]; injection E as <- <-;
    simpl; destruct_dict_has; normalise_state.
Qed.

Lemma validate_tool_invalid_kind (i : nat) (t : list (string * value))
    (s : validator) :
  truthy (get_or_none t "kind") = true ->
  in_list (get_or_none t "kind") VALID_TOOL_KINDS = false ->
  validate_tool py_repr i (VDict t) s
  = Returned tt
      (add_errors [tool_invalid_kind_msg py_repr i (get_or_none t "kind")] s).
Proof.
  intros Hk Hout.
  unfold validate_tool, tool_specific, bind, lift, py_get, py_get_default.
  fold (get_or_none t "kind"). rewrite Hk, Hout. cbn [negb when].
  rewrite !(not_in_list_neq _ _ _ Hout) by (simpl; tauto).
  reflexivity.
Qed.

(** Whatever the tool mapping, the body of the loop returns, having
    appended at most two errors, all numbered after the tool. *)
Lemma validate_tool_dict_errors (i : nat) (t : list (string * value))
    (s : validator) :
  exists es,
    validate_tool py_repr i (VDict t) s = Returned tt (add_errors es s)
    /\ List.length es <= 2
    /\ Forall (fun msg => String.prefix (tool_prefix i) msg = true) es.
Proof.
  destruct (truthy (get_or_none t "kind")) eqn:Hk.
  - destruct (in_list (get_or_none t "kind") VALID_TOOL_KINDS) eqn:Hin.
    + destruct (in_list_inv _ _ Hin) as (kind & Hkind & Hmem).
      assert (Hget : dict_get t "kind" = Some (VStr kind)).
      { unfold get_or_none in Hkind.
        destruct (dict_get t "kind"); [congruence | discriminate]. }
      assert (Hreq : exists fields,
                 In (kind, fields) tool_requirements
                 /\ List.length fields <= 2).
      { simpl in Hmem.
        destruct Hmem as [<-|[<-|[<-|[<-|[<-|[<-|[<-|[]]]]]]]];
          eexists; (split; [simpl; eauto 10 | simpl; lia]). }
      destruct Hreq as (fields & Hreq & Hlen).
      eexists. split; [apply (validate_tool_valid_kind i t kind fields s Hget Hreq)|].
      split.
      * rewrite length_map.
        pose proof (filter_length_le
                      (fun field => negb (dict_has t field)) fields).
        lia.
      * apply Forall_forall. intros msg Hmsg.
        apply in_map_iff in Hmsg. destruct Hmsg as (field & <- & _).
        apply prefix_app.
    + eexists. split; [apply (validate_tool_invalid_kind i t s Hk Hin)|].
      split; [simpl; lia|].
      constructor; [apply prefix_app | constructor].
  - eexists. split; [apply (validate_tool_falsy py_repr i t s Hk)|].
    split; [simpl; lia|].
    constructor; [apply prefix_app | constructor].
Qed.

Lemma for_enumerate_dicts (entries : list value) :
  forallb is_dict entries = true ->
  forall i s, exists ess,
    for_enumerate i entries (validate_tool py_repr) s
    = Returned tt (add_errors (concat ess) s)
    /\ Forall2 (fun j es =>
                  List.length es <= 2
                  /\ Forall (fun msg =>
                               String.prefix (tool_prefix j) msg = true) es)
         (seq i (List.length entries)) ess.
Proof.
  induction entries as [|tool entries IH]; simpl; intros H i s.
  - exists []. simpl. rewrite add_errors_nil. split; [reflexivity|constructor].
  - apply andb_prop in H. destruct H as [Ht H].
    destruct tool; try discriminate Ht.
    destruct (validate_tool_dict_errors i d s) as (es & E & Hlen & Hpre).
    destruct (IH H (S i) (add_errors es s)) as (ess & E' & F).
    exists (es :: ess). rewrite (bind_returned _ _ _ _ _ E), E'.
    simpl. rewrite add_errors_app. split; [reflexivity|].
    constructor; auto.
Qed.

(** X12.  On a sequence of tool mappings the tools rule returns, and what it
    appends is, entry after entry, at most two errors per entry, each
    beginning with the 1-based number of its entry. *)
Theorem tools_errors_by_entry (d : list (string * value))
    (entries : list value) (s : validator) :
  dict_get d "tools" = Some (VList entries) ->
  forallb is_dict entries = true ->
  exists ess,
    _validate_tools py_repr (VDict d) s
    = Returned tt (add_errors (concat ess) s)
    /\ Forall2 (fun j es =>
                  List.length es <= 2
                  /\ Forall (fun msg =>
                               String.prefix (tool_prefix j) msg = true) es)
         (seq 0 (List.length entries)) ess.
Proof.
  intros Ht Hd.
  unfold _validate_tools, bind, lift, py_get_default. rewrite Ht. simpl.
  apply for_enumerate_dicts, Hd.
Qed.

End Tools.

(* ================================================================== *)
(** ** The expression scan *)

Lemma prefix_nil (s : string) : String.prefix "" s = true.
Proof. destruct s; reflexivity. Qed.

Lemma prefix_trans (p q s : string) :
  String.prefix p q = true -> String.prefix q s = true ->
  String.prefix p s = true.
Proof.
  intros H1 H2. apply prefix_inv in H1, H2.
  destruct H1 as [r ->]. destruct H2 as [r' ->].
  rewrite append_assoc. apply prefix_app.
Qed.

(** The number of pairs the scan records is the number of strings
    beginning with '=' in the value. *)
Lemma find_expressions_count :
  forall (v : value) (path : string),
    List.length (find_expressions v path) = expression_leaves v.
Proof.
  fix IH 1. intros [| | | |str|l|d] path; try reflexivity.
  - simpl. destruct (String.prefix "=" str); reflexivity.
  - simpl. generalize 0 at 1.
    induction l as [|item l IHl]; intros i; [reflexivity|].
    rewrite length_app, IH, IHl. reflexivity.
  - simpl. induction d as [|[k v] d IHd]; [reflexivity|].
    rewrite length_app, IH, IHd. reflexivity.
Qed.

(** X13.  The scan records the strings beginning with '=' of the value,
    each one once and in document order, wherever they are nested and
    whatever the path the scan starts from: the strings it records are
    the strings of the value that begin with '=', and so is their
    number. *)
Theorem find_expressions_complete :
  forall (v : value) (path : string),
    map snd (find_expressions v path)
    = filter (String.prefix "=") (string_leaves v)
    /\ List.length (find_expressions v path) = expression_leaves v.
Proof.
  intros v path. split; [|apply find_expressions_count].
  revert v path. fix IH 1. intros [| | | |str|l|d] path; try reflexivity.
  - simpl. destruct (String.prefix "=" str); reflexivity.
  - simpl. generalize 0 at 1.
    induction l as [|item l IHl]; intros i; [reflexivity|].
    rewrite map_app, filter_app, IH, IHl. reflexivity.
  - simpl. induction d as [|[k v] d IHd]; [reflexivity|].
    rewrite map_app, filter_app, IH, IHd. reflexivity.
Qed.

(** X14.  Every pair the scan records holds a string beginning with '=', at a
    path that extends the path the scan started from. *)
Theorem find_expressions_sound :
  forall (v : value) (path : string),
    Forall (fun pe => String.prefix "=" (snd pe) = true
                      /\ String.prefix path (fst pe) = true)
      (find_expressions v path).
Proof.
  fix IH 1. intros [| | | |str|l|d] path; try (simpl; constructor).
  - simpl. destruct (String.prefix "=" str) eqn:E; constructor; [|constructor].
    simpl. split; [exact E|].
    rewrite <- (prefix_app path ""). f_equal.
    clear. induction path as [|c path IHp]; simpl; congruence.
  - simpl. generalize 0.
    induction l as [|item l IHl]; intros i; [constructor|].
    apply Forall_app. split; [|apply IHl].
    eapply Forall_impl; [|apply IH]. intros pe [H1 H2].
    split; [exact H1|]. eapply prefix_trans; [apply prefix_app | exact H2].
  - simpl. induction d as [|[k v] d IHd]; [constructor|].
    apply Forall_app. split; [|apply IHd].
    eapply Forall_impl; [|apply IH]. intros pe [H1 H2].
    split; [exact H1|].
    destruct (path =? "") eqn:Ep.
    + apply String.eqb_eq in Ep. subst. apply prefix_nil.
    + eapply prefix_trans; [apply prefix_app | exact H2].
Qed.

Lemma up_to_split (stop : ascii -> bool) (x : string) :
  exists r, x = up_to stop x ++ r.
Proof.
  induction x as [|c x [r IH]]; simpl; [exists ""; reflexivity|].
  destruct (stop c); [eexists; reflexivity|].
  exists r. simpl. f_equal. exact IH.
Qed.

Lemma before_split (sep s : string) : exists r, s = before sep s ++ r.
Proof.
  induction s as [|c s [r IH]]; rewrite before_unfold.
  - exists "". destruct (String.prefix sep ""); reflexivity.
  - destruct (String.prefix sep (String c s)); [eexists; reflexivity|].
    exists r. simpl. f_equal. exact IH.
Qed.

Lemma up_to_has_no_stop (stop : ascii -> bool) (c : ascii) (x : string) :
  stop c = true -> has_char c (up_to stop x) = false.
Proof.
  intros Hc. induction x as [|a x IH]; simpl; [reflexivity|].
  destruct (stop a) eqn:Ea; [reflexivity|]. simpl. rewrite IH.
  destruct (Ascii.eqb a c) eqn:E; [|reflexivity].
  apply Ascii.eqb_eq in E. congruence.
Qed.

Lemma env_var_name_defined (expr : string) :
  String.prefix "=Env." expr = true ->
  exists name,
    env_var_name expr = inr name
    /\ has_char ")" name = false
    /\ has_char "," name = false
    /\ String.prefix ("=Env." ++ name) expr = true.
Proof.
  intros H. apply prefix_inv in H. destruct H as [rest ->].
  exists (up_to is_delimiter (before "=Env." rest)).
  split; [apply env_var_name_eq|].
  split; [apply up_to_has_no_stop; reflexivity|].
  split; [apply up_to_has_no_stop; reflexivity|].
  destruct (before_split "=Env." rest) as [r1 E1].
  destruct (up_to_split is_delimiter (before "=Env." rest)) as [r2 E2].
  rewrite E1 at 2. rewrite E2 at 2.
  rewrite <- !append_assoc. rewrite !append_assoc.
  rewrite <- (append_assoc "=Env."). apply prefix_app.
Qed.

Lemma str_drop_env (rest : string) : str_drop 5 ("=Env." ++ rest) = rest.
Proof. reflexivity. Qed.

Lemma for_each_prints (exprs : list (string * string)) (s : validator) :
  for_each exprs (fun '(path, expr) =>
    print ("   " ++ path ++ ": " ++ expr) ;;
    when (String.prefix "=Env." expr)
      (var_name <- lift (env_var_name expr) ;;
       print ("      → Requires env var: " ++ var_name))) s
  = Returned tt
      (mkValidator (errors s) (warnings s)
         (stdout s ++ flat_map expression_lines exprs)%list).
Proof.
  revert s. induction exprs as [|[path expr] exprs IH]; intros s.
  - simpl. unfold ret. rewrite app_nil_r, validator_eta. reflexivity.
  - cbn [for_each flat_map]. unfold expression_lines at 1. cbn [fst snd].
    unfold bind at 1 2. unfold print at 1.
    destruct (String.prefix "=Env." expr) eqn:E.
    + destruct (prefix_inv _ _ E) as [rest ->].
      cbn [when]. unfold bind at 1, lift at 1.
      rewrite env_var_name_eq, str_drop_env.
      unfold print at 1. rewrite IH. cbn [errors warnings stdout].
      rewrite <- !app_assoc. reflexivity.
    + cbn [when]. unfold ret at 1. rewrite IH. cbn [errors warnings stdout].
      rewrite <- !app_assoc. reflexivity.
Qed.

Lemma flat_map_expression_lines_length (exprs : list (string * string)) :
  List.length (flat_map expression_lines exprs)
  = List.length exprs + List.length (env_expressions exprs).
Proof.
  induction exprs as [|pe exprs IH]; [reflexivity|].
  cbn [flat_map env_expressions filter]. rewrite length_app.
  unfold env_expressions in IH. rewrite IH. unfold expression_lines.
  destruct (String.prefix "=Env." (snd pe)); simpl; lia.
Qed.

(** X16.  The expression scan never raises, whatever the value, and changes
    neither the errors nor the warnings.  It prints nothing when it finds
    no expression; otherwise it prints the header and then, for each
    recorded expression in turn, the line "   <path>: <expression>",
    followed, when the expression begins with "=Env.", by the line
    "      → Requires env var: <name>", where the name is what follows
    that "=Env." up to the next "=Env.", ')' or ','.  That makes the
    header, a line for each expression and one more for each expression
    that names an environment variable. *)
Theorem expression_scan_only_prints (agent_data : value) (s : validator) :
  _check_powerfx_expressions agent_data s
  = Returned tt
      (mkValidator (errors s) (warnings s)
         (stdout s ++ scan_lines (find_expressions agent_data ""))%list)
  /\ List.length (scan_lines (find_expressions agent_data ""))
     = match find_expressions agent_data "" with
       | [] => 0
       | exprs =>
           1 + List.length exprs + List.length (env_expressions exprs)
       end.
Proof.
  unfold _check_powerfx_expressions, scan_lines.
  destruct (find_expressions agent_data "") as [|pe exprs] eqn:E.
  - simpl. unfold ret. rewrite app_nil_r, validator_eta. auto.
  - split.
    + cbn [when]. unfold bind at 1, print at 1. rewrite for_each_prints.
      cbn [errors warnings stdout]. rewrite <- !app_assoc. reflexivity.
    + cbn [List.length]. rewrite flat_map_expression_lines_length.
      reflexivity.
Qed.

(* ================================================================== *)
(** ** Printing the results *)

Lemma for_each_print {A : Type} (f : A -> string) (l : list A)
    (s : validator) :
  for_each l (fun x => print (f x)) s
  = Returned tt
      (mkValidator (errors s) (warnings s) (stdout s ++ map f l)%list).
Proof.
  revert s. induction l as [|x l IH]; intros s; simpl.
  - unfold ret. rewrite app_nil_r, validator_eta. reflexivity.
  - unfold bind, print at 1. rewrite IH. simpl.
    rewrite <- app_assoc. reflexivity.
Qed.

Lemma print_lines (header : nat -> string) (l : list string)
    (s : validator) :
  when (nonempty l)
    (print (header (List.length l)) ;;
     for_each l (fun x => print (bullet x))) s
  = Returned tt
      (mkValidator (errors s) (warnings s)
         (stdout s
          ++ (if nonempty l then header (List.length l) :: map bullet l
              else []))%list).
Proof.
  destruct l as [|x l]; cbn [nonempty when].
  - unfold ret. rewrite app_nil_r, validator_eta. reflexivity.
  - unfold bind, print at 1. rewrite for_each_print.
    cbn [errors warnings stdout]. rewrite <- app_assoc. reflexivity.
Qed.

Lemma print_lines_failed (s : validator) :
  when (nonempty (errors s))
    (print (failed_header (List.length (errors s))) ;;
     for_each (errors s) (fun error => print (bullet error))) s
  = Returned tt
      (mkValidator (errors s) (warnings s)
         (stdout s ++ failed_lines (errors s))%list).
Proof. apply print_lines. Qed.

Lemma print_lines_warnings (s : validator) :
  when (nonempty (warnings s))
    (print (warnings_header (List.length (warnings s))) ;;
     for_each (warnings s) (fun warning => print (bullet warning))) s
  = Returned tt
      (mkValidator (errors s) (warnings s)
         (stdout s ++ warning_lines (warnings s))%list).
Proof. apply print_lines. Qed.

Section Results.

Variable py_repr : value -> string.

(** What [print_results] does up to its last [if]. *)
Lemma print_results_start (file_name : string) (s : validator)
    (k : M unit) :
  (print (String "010" (str_mul "=" 60)) ;;
   print ("Validating: " ++ file_name) ;;
   print (str_mul "=" 60) ;;
   errs <- get_errors ;;
   when (nonempty errs)
     (print (failed_header (List.length errs)) ;;
      for_each errs (fun error => print (bullet error))) ;;
   warns <- get_warnings ;;
   when (nonempty warns)
     (print (warnings_header (List.length warns)) ;;
      for_each warns (fun warning => print (bullet warning))) ;;
   k) s
  = k (mkValidator (errors s) (warnings s)
         (stdout s ++ heading_lines file_name ++ failed_lines (errors s)
          ++ warning_lines (warnings s))%list).
Proof.
  unfold bind at 1 2 3, print at 1 2 3. cbn [errors warnings stdout].
  unfold bind at 1, get_errors at 1. cbn [errors warnings stdout].
  unfold bind at 1. rewrite print_lines. cbn [errors warnings stdout].
  unfold bind at 1, get_warnings at 1. cbn [errors warnings stdout].
  unfold bind at 1. rewrite print_lines. cbn [errors warnings stdout].
  unfold heading_lines, failed_lines, warning_lines.
  rewrite <- !app_assoc. reflexivity.
Qed.

(** With a mapping in [self.agent_data], [print_results] returns and
    prints the heading, the errors, the warnings and, when there is no
    error, the lines of success. *)
Lemma print_results_dict (file_name : string) (d : list (string * value))
    (s : validator) :
  print_results py_repr file_name (VDict d) s
  = Returned tt
      (mkValidator (errors s) (warnings s)
         (stdout s ++ heading_lines file_name ++ failed_lines (errors s)
          ++ warning_lines (warnings s)
          ++ (if nonempty (errors s) then [] else passed_lines py_repr d))%list).
Proof.
  unfold print_results. rewrite print_results_start.
  unfold bind at 1, get_errors at 1. cbn [errors warnings stdout].
  destruct (nonempty (errors s)); cbn [negb when].
  - unfold ret. rewrite !app_nil_r. reflexivity.
  - unfold passed_lines, get_or_none, bind, lift, py_get, py_get_default,
      py_contains, print, when, ret.
    destruct (dict_has d "description"); cbv beta iota;
      cbn [errors warnings stdout]; rewrite <- !app_assoc;
      cbn [List.app]; reflexivity.
Qed.

(** With errors in the validator, [print_results] returns whatever
    [self.agent_data] is, which it does not look at. *)
Lemma print_results_failed (file_name : string) (agent_data : value)
    (s : validator) :
  errors s <> [] ->
  print_results py_repr file_name agent_data s
  = Returned tt
      (mkValidator (errors s) (warnings s)
         (stdout s ++ heading_lines file_name ++ failed_lines (errors s)
          ++ warning_lines (warnings s))%list).
Proof.
  intros H. unfold print_results. rewrite print_results_start.
  unfold bind at 1, get_errors at 1. cbn [errors warnings stdout].
  destruct (errors s); [congruence|]. reflexivity.
Qed.

Lemma bullet_not_header (msg : string) :
  bullet msg <> passed_header
  /\ (forall n, bullet msg <> failed_header n)
  /\ (forall n, bullet msg <> warnings_header n).
Proof. repeat split; intros; discriminate. Qed.

Lemma heading_not_verdict (file_name : string) (n : nat) :
  ~ In passed_header (heading_lines file_name)
  /\ ~ In (failed_header n) (heading_lines file_name).
Proof.
  split; intros [H|[H|[H|[]]]]; try discriminate H;
    cbv in H; discriminate H.
Qed.

Lemma failed_lines_verdict (errs : list string) (n : nat) :
  ~ In passed_header (failed_lines errs)
  /\ (In (failed_header (List.length errs)) (failed_lines errs)
      <-> errs <> [])
  /\ (forall e, In e errs -> In (bullet e) (failed_lines errs)).
Proof.
  unfold failed_lines. destruct errs as [|e errs]; cbn [nonempty].
  - repeat split; try tauto; simpl; tauto.
  - split; [|split].
    + intros [H|H]; [discriminate H|].
      apply in_map_iff in H. destruct H as (x & H & _).
      apply (proj1 (bullet_not_header x)), H.
    + split; [discriminate | left; reflexivity].
    + intros x Hx. right. apply in_map, Hx.
Qed.

Lemma warning_lines_verdict (warns : list string) (n : nat) :
  ~ In passed_header (warning_lines warns)
  /\ ~ In (failed_header n) (warning_lines warns)
  /\ (forall w, In w warns -> In (bullet w) (warning_lines warns)).
Proof.
  unfold warning_lines. destruct warns as [|w warns]; cbn [nonempty].
  - repeat split; simpl; tauto.
  - split; [|split].
    + intros [H|H]; [discriminate H|].
      apply in_map_iff in H. destruct H as (x & H & _).
      apply (proj1 (bullet_not_header x)), H.
    + intros [H|H]; [discriminate H|].
      apply in_map_iff in H. destruct H as (x & H & _).
      apply (proj1 (proj2 (bullet_not_header x)) n), H.
    + intros x Hx. right. apply in_map, Hx.
Qed.

Lemma passed_lines_verdict (d : list (string * value)) (n : nat) :
  In passed_header (passed_lines py_repr d)
  /\ ~ In (failed_header n) (passed_lines py_repr d).
Proof.
  unfold passed_lines. split; [left; reflexivity|].
  intros H. apply in_app_or in H. destruct H as [[H|[H|[H|[]]]]|H];
    try discriminate H.
  destruct (dict_has d "description"); [|destruct H].
  destruct H as [H|[]]. discriminate H.
Qed.

Lemma print_results_reflects (file_name : string) (agent_data : value)
    (s : validator) :
  errors s <> [] \/ is_dict agent_data = true ->
  exists out,
    print_results py_repr file_name agent_data s
    = Returned tt
        (mkValidator (errors s) (warnings s) (stdout s ++ out)%list)
    /\ (In passed_header out <-> errors s = [])
    /\ (In (failed_header (List.length (errors s))) out <-> errors s <> [])
    /\ (forall e, In e (errors s) -> In (bullet e) out)
    /\ (forall w, In w (warnings s) -> In (bullet w) out).
Proof.
  intros H.
  pose proof (heading_not_verdict file_name (List.length (errors s)))
    as [Hh1 Hh2].
  pose proof (failed_lines_verdict (errors s) 0) as (Hf1 & Hf2 & Hf3).
  pose proof (warning_lines_verdict (warnings s) (List.length (errors s)))
    as (Hw1 & Hw2 & Hw3).
  destruct (errors s) as [|e errs] eqn:E.
  - destruct H as [H|H]; [congruence|].
    destruct agent_data as [| | | | | |d]; try discriminate H.
    pose proof (passed_lines_verdict d 0) as [Hp1 Hp2].
    eexists. split; [rewrite print_results_dict, E; reflexivity|].
    cbn [nonempty]. simpl List.length in *.
    rewrite !in_app_iff.
    split; [tauto|]. split; [split; [tauto | congruence]|].
    split; [intros x []|].
    intros w Hw. rewrite !in_app_iff. specialize (Hw3 w Hw). tauto.
  - eexists. split; [rewrite print_results_failed, E by congruence;
                     reflexivity|].
    rewrite !in_app_iff.
    split; [split; [tauto | discriminate]|].
    split; [split; [discriminate | intros _; right; left; apply Hf2;
                                   discriminate]|].
    split.
    + intros x Hx. rewrite !in_app_iff. specialize (Hf3 x Hx). tauto.
    + intros w Hw. rewrite !in_app_iff. specialize (Hw3 w Hw). tauto.
Qed.

End Results.

(* ================================================================== *)
(** ** The script *)

Section Main.

Variable py_repr : value -> string.
Variable load : string -> source.
Variable path_name : string -> string.

(** Once [validate] has returned, [self.agent_data] is a mapping: a root
    of another type makes [validate] raise, and without a load the empty
    mapping of [__init__] stays. *)
Lemma agent_data_after_returned (src : source) (s : validator) b st :
  validate py_repr src s = Returned b st ->
  is_dict (agent_data_after src) = true.
Proof.
  intros H. destruct src as [path|e|agent_data]; try reflexivity.
  simpl. destruct (is_dict agent_data) eqn:E; [reflexivity|].
  destruct (non_mapping_root_always_raises py_repr agent_data E s)
    as (e & s' & E').
  congruence.
Qed.

(** X18.  The script on a command line with a path: when [validate] returns,
    [print_results] returns as well, the exit status is 0 for true and 1
    for false, and the line of success is printed exactly with 0, the
    line of failure exactly with 1, after the errors were all listed; an
    exception of [validate] is caught by nothing, and nothing more is
    printed.  With any other number of arguments the script prints the
    usage and exits with 1. *)
Theorem script_exit_status (prog path : string) :
  (forall b st,
      validate py_repr (load path) init = Returned b st ->
      exists out,
        main py_repr load path_name [prog; path]
        = ((stdout st ++ out)%list, Exit (if b then 0 else 1))
        /\ (In passed_header out <-> b = true)
        /\ (In (failed_header (List.length (errors st))) out <-> b = false)
        /\ (forall e, In e (errors st) -> In (bullet e) out))
  /\ (forall e st,
        validate py_repr (load path) init = Raised e st ->
        main py_repr load path_name [prog; path] = (stdout st, Uncaught e))
  /\ (exit_code (snd (main py_repr load path_name [prog; path])) = 0
      <-> exists st, validate py_repr (load path) init = Returned true st)
  /\ (forall argv, List.length argv <> 2 ->
        main py_repr load path_name argv = (usage_lines, Exit 1)).
Proof.
  assert (Hret : forall b st,
             validate py_repr (load path) init = Returned b st ->
             exists out,
               main py_repr load path_name [prog; path]
               = ((stdout st ++ out)%list, Exit (if b then 0 else 1))
               /\ (In passed_header out <-> b = true)
               /\ (In (failed_header (List.length (errors st))) out
                   <-> b = false)
               /\ (forall e, In e (errors st) -> In (bullet e) out)).
  { intros b st E.
    pose proof (validate_result _ _ _ _ _ E) as Hb.
    destruct (print_results_reflects py_repr (path_name path)
                (agent_data_after (load path)) st
                (or_intror (agent_data_after_returned _ _ _ _ E)))
      as (out & Ep & Hp & Hf & He & _).
    exists out. split.
    - unfold main. rewrite (bind_returned _ _ _ _ _ E).
      rewrite (bind_returned _ _ _ _ _ Ep). reflexivity.
    - rewrite Hp, Hf, Hb. split; [apply iff_sym, length_eqb_0|].
      split; [|exact He].
      destruct (errors st); simpl; split; congruence. }
  assert (Hraise : forall e st,
             validate py_repr (load path) init = Raised e st ->
             main py_repr load path_name [prog; path]
             = (stdout st, Uncaught e)).
  { intros e st E. unfold main. rewrite (bind_raised _ _ _ _ _ E).
    reflexivity. }
  split; [exact Hret|]. split; [exact Hraise|]. split.
  - destruct (validate py_repr (load path) init) as [b st|e st] eqn:E.
    + destruct (Hret b st eq_refl) as (out & -> & _). simpl.
      destruct b; simpl; split; try discriminate; eauto.
      intros [st' H]. congruence.
    + rewrite (Hraise e st eq_refl). simpl. split; [discriminate|].
      intros [st' H]. discriminate.
  - intros argv H.
    destruct argv as [|a [|b [|c argv]]]; simpl in *; try reflexivity.
    congruence.
Qed.

End Main.

(* ================================================================== *)
(** ** The report as a whole *)

Lemma emits_bind_lift (PE PW : string -> Prop) {A B : Type} (r : res A)
    (a : A) (k : A -> M B) :
  r = inr a -> emits PE PW (k a) -> emits PE PW (bind (lift r) k).
Proof. intros -> H s. apply H. Qed.

Section Whole.

Variable py_repr : value -> string.

Lemma report_errors_grouped (d : list (string * value)) :
  exists em et,
    errors (report py_repr d)
    = (required_errors d ++ kind_errors py_repr d ++ em ++ et)%list
    /\ Forall (fun msg => model_related msg = true) em
    /\ Forall (fun msg => tool_related msg = true) et.
Proof.
  unfold report. rewrite validate_dict, remaining_rules_eq.
  match goal with |- context [bind _ _ ?s0] => set (s2 := s0) end.
  destruct (validate_model_emits py_repr (VDict d) s2)
    as (em & wm & Hem & _ & Fm & _).
  unfold bind.
  destruct (_validate_model py_repr (VDict d) s2) as [[] s3|e s3];
    simpl in Hem.
  - destruct (after_model_emits py_repr (VDict d) s3)
      as (et & wt & Het & _ & Ft & _).
    exists em, et. rewrite Het, Hem. subst s2. simpl.
    rewrite <- !app_assoc. auto.
  - exists em, []. simpl. rewrite Hem. subst s2. simpl.
    rewrite app_nil_r, <- !app_assoc. auto.
Qed.

(** X2.  A required field that is a key of the root mapping is never reported
    missing, whatever its value is, null and the empty string included. *)
Theorem present_field_not_reported (d : list (string * value))
    (field : string) (v : value) :
  field = "kind" \/ field = "name" ->
  dict_get d field = Some v ->
  ~ In (missing_field_msg field) (errors (report py_repr d)).
Proof.
  intros Hf Hv Hin.
  assert (Hhas : dict_has d field = true)
    by (unfold dict_has; rewrite Hv; reflexivity).
  destruct (report_errors_grouped d) as (em & et & E & Fm & Ft).
  rewrite E in Hin. rewrite !in_app_iff in Hin.
  destruct Hin as [Hin|[Hin|[Hin|Hin]]].
  - unfold required_errors in Hin. apply in_app_or in Hin.
    destruct Hin as [Hin|Hin].
    + destruct (dict_has d "kind") eqn:Ek; [destruct Hin|].
      destruct Hin as [Hin|[]]. destruct Hf as [-> | ->];
        [congruence | discriminate Hin].
    + destruct (dict_has d "name") eqn:En; [destruct Hin|].
      destruct Hin as [Hin|[]]. destruct Hf as [-> | ->];
        [discriminate Hin | congruence].
  - apply kind_errors_inv in Hin. destruct Hin as [kind Hin].
    destruct Hf as [-> | ->]; discriminate Hin.
  - rewrite Forall_forall in Fm. apply Fm in Hin.
    apply model_related_inv in Hin.
    destruct Hin as (r & [E'|[E'|[E'|[E'|[E'|E']]]]]);
      destruct Hf as [-> | ->]; discriminate E'.
  - rewrite Forall_forall in Ft. apply Ft in Hin.
    apply tool_related_inv in Hin. destruct Hin as [r E'].
    destruct Hf as [-> | ->]; discriminate E'.
Qed.

Lemma validate_model_truthy_emits (d : list (string * value)) :
  truthy (get_or_none d "model") = true ->
  emits anything (fun _ => False) (_validate_model py_repr (VDict d)).
Proof.
  intros H. unfold _validate_model, connection_required_fields.
  eapply emits_bind_lift; [reflexivity|].
  fold (get_or_none d "model"). rewrite H. cbn [negb].
  repeat emits_step; exact I.
Qed.

(** X3.  The report holds the warning about the model section when the model
    is absent or falsy, and no warning at all otherwise. *)
Theorem report_warnings (d : list (string * value)) :
  warnings (report py_repr d)
  = if truthy (get_or_none d "model") then [] else [no_model_msg].
Proof.
  destruct (truthy (get_or_none d "model")) eqn:H.
  - unfold report. rewrite validate_dict, remaining_rules_eq.
    match goal with |- context [bind _ _ ?s0] => set (s2 := s0) end.
    assert (Hall : emits anything (fun _ => False)
                     (bind (_validate_model py_repr (VDict d))
                        (fun _ => after_model py_repr (VDict d)))).
    { apply emits_bind; [apply validate_model_truthy_emits, H | intros _].
      eapply emits_weaken; [| |apply after_model_emits]; [|auto].
      intros; exact I. }
    destruct (Hall s2) as (es & ws & _ & Hw & _ & Fw).
    rewrite Hw, (Forall_False_nil _ Fw). reflexivity.
  - apply report_falsy_model. exact H.
Qed.



End Whole.

(* ================================================================== *)
(** ** Further properties of the rules, stated for the reader *)

Section Further.

Variable py_repr : value -> string.

(** X10.  A tool of one of the seven kinds gets one error for each field its
    kind requires that is not a key of the tool, in the order of the
    checks, and no other error; the loop then goes on with the next
    entry. *)
Theorem tool_with_valid_kind (i : nat) (t : list (string * value))
    (kind : string) (fields : list string) (rest : list value)
    (s : validator) :
  dict_get t "kind" = Some (VStr kind) ->
  In (kind, fields) tool_requirements ->
  validate_tool py_repr i (VDict t) s
  = Returned tt
      (add_errors
         (map (tool_requires_msg i kind)
            (filter (fun field => negb (dict_has t field)) fields)) s)
  /\ for_enumerate i (VDict t :: rest) (validate_tool py_repr) s
     = for_enumerate (S i) rest (validate_tool py_repr)
         (add_errors
            (map (tool_requires_msg i kind)
               (filter (fun field => negb (dict_has t field)) fields)) s).
Proof.
  intros Hk Hin.
  pose proof (validate_tool_valid_kind py_repr i t kind fields s Hk Hin) as E.
  split; [exact E|].
  cbn [for_enumerate]. rewrite (bind_returned _ _ _ _ _ E). reflexivity.
Qed.

(** X11.  A tool whose kind is truthy and not one of the seven kinds gets the
    one error naming the kind: none of the tool-specific validations
    applies to it; the loop then goes on with the next entry. *)
Theorem tool_with_invalid_kind (i : nat) (t : list (string * value))
    (rest : list value) (s : validator) :
  truthy (get_or_none t "kind") = true ->
  in_list (get_or_none t "kind") VALID_TOOL_KINDS = false ->
  validate_tool py_repr i (VDict t) s
  = Returned tt
      (add_errors [tool_invalid_kind_msg py_repr i (get_or_none t "kind")] s)
  /\ for_enumerate i (VDict t :: rest) (validate_tool py_repr) s
     = for_enumerate (S i) rest (validate_tool py_repr)
         (add_errors
            [tool_invalid_kind_msg py_repr i (get_or_none t "kind")] s).
Proof.
  intros Hk Hout.
  pose proof (validate_tool_invalid_kind py_repr i t s Hk Hout) as E.
  split; [exact E|].
  cbn [for_enumerate]. rewrite (bind_returned _ _ _ _ _ E). reflexivity.
Qed.

(** X15.  On an expression that begins with "=Env." the extraction of the name
    never fails; the name holds neither ')' nor ',', and the expression
    begins with "=Env." followed by the name. *)
Theorem env_var_name_total (expr : string) :
  String.prefix "=Env." expr = true ->
  exists name,
    env_var_name expr = inr name
    /\ has_char ")" name = false
    /\ has_char "," name = false
    /\ String.prefix ("=Env." ++ name) expr = true.
Proof. apply env_var_name_defined. Qed.

(** X17.  What [print_results] prints reflects the validator: it returns
    whenever there is an error or [self.agent_data] is a mapping, leaves
    errors and warnings as they are, prints the line of success exactly
    when there is no error and the line of failure, with the number of
    errors, exactly when there is one, and lists every error and every
    warning. *)
Theorem print_results_verdict (file_name : string) (agent_data : value)
    (s : validator) :
  errors s <> [] \/ is_dict agent_data = true ->
  exists out,
    print_results py_repr file_name agent_data s
    = Returned tt
        (mkValidator (errors s) (warnings s) (stdout s ++ out)%list)
    /\ (In passed_header out <-> errors s = [])
    /\ (In (failed_header (List.length (errors s))) out <-> errors s <> [])
    /\ (forall e, In e (errors s) -> In (bullet e) out)
    /\ (forall w, In w (warnings s) -> In (bullet w) out).
Proof. apply print_results_reflects. Qed.

(** X1.  The errors of the report come rule by rule, in the order the rules
    run: the missing fields ('kind' before 'name'), the error about the
    kind, the errors of the model rule, the errors of the tools rule. *)
Theorem report_in_rule_order (d : list (string * value)) :
  exists em et,
    errors (report py_repr d)
    = (required_errors d ++ kind_errors py_repr d ++ em ++ et)%list
    /\ Forall (fun msg => model_related msg = true) em
    /\ Forall (fun msg => tool_related msg = true) et.
Proof. apply report_errors_grouped. Qed.

End Further.

(* ================================================================== *)
(** ** The further properties at concrete documents *)

Lemma connection_without_kind_witness :
  truthy (get_or_none [("endpoint", VStr "https://e")] "kind") = false
  /\ _validate_model no_repr
       (VDict (connection_doc [("endpoint", VStr "https://e")])) init
     = Returned tt
         (add_errors ["Missing required field: 'model.connection.kind'"] init).
Proof.
  split; [reflexivity|].
  refine (connection_without_kind no_repr
            (connection_doc [("endpoint", VStr "https://e")])
            (connection_model [("endpoint", VStr "https://e")])
            [("endpoint", VStr "https://e")] init eq_refl eq_refl _ eq_refl).
  discriminate.
Defined.

Lemma connection_with_invalid_kind_witness :
  in_list (VStr "oauth") VALID_CONNECTION_KINDS = false
  /\ _validate_model no_repr
       (VDict (connection_doc [("kind", VStr "oauth")])) init
     = Returned tt
         (add_errors
            ["Invalid connection kind: 'oauth' (must be one of ['remote', 'key', 'reference', 'anonymous'])"]
            init).
Proof.
  split; [reflexivity|].
  exact (connection_with_invalid_kind no_repr
           (connection_doc [("kind", VStr "oauth")])
           (connection_model [("kind", VStr "oauth")])
           [("kind", VStr "oauth")] init eq_refl eq_refl eq_refl eq_refl).
Defined.

Lemma connection_requires_field_witness :
  _validate_model no_repr
    (VDict (connection_doc [("kind", VStr "reference")])) init
  = Returned tt (add_errors ["'reference' connection requires 'name'"] init)
  /\ _validate_model no_repr
       (VDict (connection_doc [("kind", VStr "remote");
                               ("endpoint", VStr "https://e")])) init
     = Returned tt (add_errors [] init).
Proof.
  split.
  - exact (connection_requires_field no_repr
             (connection_doc [("kind", VStr "reference")])
             (connection_model [("kind", VStr "reference")])
             [("kind", VStr "reference")] "reference" "name" init
             eq_refl eq_refl eq_refl (or_intror (or_introl eq_refl))).
  - exact (connection_requires_field no_repr
             (connection_doc [("kind", VStr "remote");
                              ("endpoint", VStr "https://e")])
             (connection_model [("kind", VStr "remote");
                                ("endpoint", VStr "https://e")])
             [("kind", VStr "remote"); ("endpoint", VStr "https://e")]
             "remote" "endpoint" init
             eq_refl eq_refl eq_refl (or_introl eq_refl)).
Defined.

Lemma model_without_connection_witness :
  truthy (get_or_none (connection_model []) "connection") = false
  /\ _validate_model no_repr (VDict (connection_doc [])) init
     = Returned tt (add_errors [] init).
Proof.
  split; [reflexivity|].
  refine (model_without_connection no_repr (connection_doc [])
            (connection_model []) init eq_refl _ eq_refl).
  discriminate.
Defined.

Lemma tool_with_valid_kind_witness :
  validate_tool no_repr 0
    (VDict [("kind", VStr "mcp"); ("name", VStr "docs")]) init
  = Returned tt (add_errors ["Tool #1: 'mcp' tool requires 'url'"] init).
Proof.
  exact (proj1 (tool_with_valid_kind no_repr 0
                  [("kind", VStr "mcp"); ("name", VStr "docs")]
                  "mcp" ["name"; "url"] [] init eq_refl
                  (or_intror (or_intror (or_intror (or_intror
                     (or_introl eq_refl))))))).
Defined.

Lemma tool_with_invalid_kind_witness :
  in_list (VStr "browser") VALID_TOOL_KINDS = false
  /\ validate_tool no_repr 1 (VDict [("kind", VStr "browser")]) init
     = Returned tt
         (add_errors
            ["Tool #2: Invalid kind 'browser' (must be one of ['function', 'web_search', 'file_search', 'code_interpreter', 'mcp', 'openapi', 'custom'])"]
            init).
Proof.
  split; [reflexivity|].
  exact (proj1 (tool_with_invalid_kind no_repr 1 [("kind", VStr "browser")]
                  [] init eq_refl eq_refl)).
Defined.

Lemma tools_errors_by_entry_witness :
  exists ess,
    _validate_tools no_repr
      (VDict (tools_doc [VDict [("kind", VStr "function")];
                         VDict [("kind", VStr "web_search")]])) init
    = Returned tt (add_errors (concat ess) init)
    /\ Forall2 (fun j es =>
                  List.length es <= 2
                  /\ Forall (fun msg =>
                               String.prefix (tool_prefix j) msg = true) es)
         [0; 1] ess.
Proof.
  exact (tools_errors_by_entry no_repr
           (tools_doc [VDict [("kind", VStr "function")];
                       VDict [("kind", VStr "web_search")]])
           [VDict [("kind", VStr "function")];
            VDict [("kind", VStr "web_search")]] init eq_refl eq_refl).
Defined.

Lemma env_var_name_total_witness :
  String.prefix "=Env." "=Env.API_KEY)" = true
  /\ exists name,
       env_var_name "=Env.API_KEY)" = inr name
       /\ has_char ")" name = false
       /\ has_char "," name = false
       /\ String.prefix ("=Env." ++ name) "=Env.API_KEY)" = true.
Proof.
  split; [reflexivity|].
  exact (env_var_name_total "=Env.API_KEY)" eq_refl).
Defined.

(** With one error and one warning in the validator, and then with the
    warning alone. *)
Lemma print_results_verdict_witness :
  (exists out,
      print_results no_repr "draft.yaml" (VDict nameless_doc)
        (mkValidator ["Missing required field: 'name'"] [no_model_msg] [])
      = Returned tt
          (mkValidator ["Missing required field: 'name'"] [no_model_msg] out)
      /\ In (failed_header 1) out
      /\ In (bullet "Missing required field: 'name'") out
      /\ In (bullet no_model_msg) out
      /\ ~ In passed_header out)
  /\ (exists out,
        print_results no_repr "agent.yaml" minimal_doc
          (mkValidator [] [no_model_msg] [])
        = Returned tt (mkValidator [] [no_model_msg] out)
        /\ In passed_header out
        /\ In (bullet no_model_msg) out
        /\ ~ In (failed_header 0) out).
Proof.
  split.
  - destruct (print_results_verdict no_repr "draft.yaml" (VDict nameless_doc)
                (mkValidator ["Missing required field: 'name'"]
                   [no_model_msg] []))
      as (out & E & Hp & Hf & He & Hw).
    { left. discriminate. }
    exists out. split; [exact E|].
    split; [apply (proj2 Hf); discriminate|].
    split; [apply He; left; reflexivity|].
    split; [apply Hw; left; reflexivity|].
    intros H. apply (proj1 Hp) in H. discriminate H.
  - destruct (print_results_verdict no_repr "agent.yaml" minimal_doc
                (mkValidator [] [no_model_msg] []))
      as (out & E & Hp & Hf & He & Hw).
    { right. reflexivity. }
    exists out. split; [exact E|].
    split; [apply (proj2 Hp); reflexivity|].
    split; [apply Hw; left; reflexivity|].
    intros H. apply (proj1 Hf) in H. apply H. reflexivity.
Defined.

Lemma script_exit_status_witness :
  exit_code (snd (main no_repr example_load (fun path => path)
                    ["validate_yaml.py"; "agent.yaml"])) = 0
  /\ exists out,
       main no_repr example_load (fun path => path)
         ["validate_yaml.py"; "draft.yaml"]
       = (([] ++ out)%list, Exit 1)
       /\ (In passed_header out <-> false = true)
       /\ (In (failed_header 1) out <-> false = false)
       /\ (forall e, In e ["Missing required field: 'name'"] ->
                     In (bullet e) out).
Proof.
  split.
  - apply (proj2 (proj1 (proj2 (proj2
             (script_exit_status no_repr example_load (fun path => path)
                "validate_yaml.py" "agent.yaml"))))).
    eexists. reflexivity.
  - exact (proj1 (script_exit_status no_repr example_load (fun path => path)
                    "validate_yaml.py" "draft.yaml")
             false
             (mkValidator ["Missing required field: 'name'"] [no_model_msg] [])
             eq_refl).
Defined.

Lemma present_field_not_reported_witness :
  dict_get null_fields_doc "name" = Some VNone
  /\ ~ In "Missing required field: 'name'"
        (errors (report no_repr null_fields_doc)).
Proof.
  split; [reflexivity|].
  exact (present_field_not_reported no_repr null_fields_doc "name" VNone
           (or_intror eq_refl) eq_refl).
Defined.
